(** * Authentication / authorization core of the REST API: use cases and handlers

    The Go sources covered here are the comments use case, the auth use case,
    the session use case, the auth HTTP handlers and the cookie helpers of
    [utils].  Repositories ([comments.Repository], [auth.Repository],
    [session.SessRepository]) are Go interfaces whose implementations are
    outside this tree; every call that leaves the tree is an explicit
    operation of type [Call], and a use case is a finite tree of such
    operations ([Prog]).  Running a tree against an implementation of the
    operations yields the result, the final state and the list of calls that
    were made, in order. *)

From stdpp Require Import base option list strings pretty gmap.
From Stdlib Require Import ZArith Lia.

Local Open Scope string_scope.
Local Open Scope Z_scope.

(** ** Data model *)

(** [uuid.UUID]: only its canonical text form is observed by the code
    ([AuthorID.String()], [uuid.Parse]). *)
Inductive UUID : Type := MkUUID (canonical : string).

Definition UUID_String (u : UUID) : string :=
  match u with MkUUID s => s end.

#[global] Instance UUID_eq_dec : EqDecision UUID.
Proof. solve_decision. Defined.

(** The closed set of error kinds of the core. *)
Inductive ErrorKind : Type :=
  | ValidationError | AuthError | ForbiddenError | NotFoundError
  | ExpiredTokenError | InvalidTokenError | SigningError | HashError
  | StoreError | UnauthorizedError.

#[global] Instance ErrorKind_eq_dec : EqDecision ErrorKind.
Proof. solve_decision. Defined.

(** Go [error] values as they occur in the sources:
    a tagged error, [errors.Wrap err msg], the REST errors built by
    [httpErrors.New...Error], and the sentinel [http.ErrNoCookie]. *)
Inductive error : Type :=
  | Tagged (kind : ErrorKind)
  | Wrap (cause : error) (msg : string)
  | RestErr (status : Z) (cause : error)
  | ErrNoCookie.

#[global] Instance error_eq_dec : EqDecision error.
Proof. solve_decision. Defined.

Definition NewBadRequestError (cause : error) : error := RestErr 400 cause.
Definition NewUnauthorizedError (cause : error) : error := RestErr 401 cause.
Definition NewInternalServerError (cause : error) : error := RestErr 500 cause.

(** [errors.Unauthorized] of pkg/errors. *)
Definition errors_Unauthorized : error := Tagged UnauthorizedError.

(** [errors.Cause]: the kind at the root of a chain of wraps. *)
Fixpoint error_kind (e : error) : option ErrorKind :=
  match e with
  | Tagged k => Some k
  | Wrap c _ => error_kind c
  | RestErr _ c => error_kind c
  | ErrNoCookie => None
  end.

(** A Go [(T, error)] return value. *)
Inductive result (A : Type) : Type :=
  | Ok (a : A)
  | Err (e : error).
Arguments Ok {A} a.
Arguments Err {A} e.

(** [models.User], restricted to the fields the core reads or writes. *)
Record User : Type := mkUser {
  UserID : UUID;
  FirstName : string;
  Email : string;
  Password : string;
}.

#[global] Instance User_eq_dec : EqDecision User.
Proof. solve_decision. Defined.

Record UserWithToken : Type := mkUserWithToken {
  uwtUser : User;
  Token : string;
}.

Record UsersList : Type := mkUsersList {
  TotalCount : Z;
  Users : list User;
}.

Record LoginDTO : Type := mkLoginDTO {
  loginEmail : string;
  loginPassword : string;
}.

Record PaginationQuery : Type := mkPaginationQuery {
  Size : Z;
  Page : Z;
  OrderBy : string;
}.

(** [models.Comment] is what a request carries, [models.CommentBase] is what
    the repository returns from [GetByID]. *)
Record Comment : Type := mkComment {
  CommentID : UUID;
  AuthorID : UUID;
  NewsID : UUID;
  Message : string;
}.

Record CommentBase : Type := mkCommentBase {
  cbCommentID : UUID;
  cbAuthorID : UUID;
  cbMessage : string;
}.

Record CommentsList : Type := mkCommentsList {
  clTotalCount : Z;
  Comments : list CommentBase;
}.

Record Session : Type := mkSession {
  SessionID : string;
  sessUserID : UUID;
}.

(** [config.Config]: the [Session] and [Cookie] blocks. *)
Record SessionConfig : Type := mkSessionConfig {
  sessName : string;
  sessExpire : Z;
}.

Record CookieConfig : Type := mkCookieConfig {
  cookieName : string;
  cookieMaxAge : Z;
  cookieSecure : bool;
  cookieHttpOnly : bool;
}.

Record Config : Type := mkConfig {
  cfgSession : SessionConfig;
  cfgCookie : CookieConfig;
  cfgJwtSecret : string;
}.

(** [http.Cookie]. *)
Record Cookie : Type := mkCookie {
  Name : string;
  Value : string;
  Path : string;
  RawExpires : string;
  MaxAge : Z;
  Secure : bool;
  HttpOnly : bool;
  SameSite : Z;
}.

(** [context.Context] as the core uses it: the value stored under ["user"]
    and the request id.  The five second deadline is real time and is not
    represented. *)
Record Context : Type := mkContext {
  ctxUser : option User;
  ctxReqID : string;
}.

(** The part of [echo.Context] a handler reads; the body is a flat JSON
    object, field name to value. *)
Record Request : Type := mkRequest {
  reqParams : list (string * string);
  reqCookies : list Cookie;
  reqBody : list (string * string);
  reqUser : option User;
  reqID : string;
}.

(** ** Operations that leave the tree *)

Inductive Call : Type :=
  (* comments.Repository *)
  | CommRepoCreate (ctx : Context) (comment : Comment)
  | CommRepoUpdate (ctx : Context) (comment : Comment)
  | CommRepoDelete (ctx : Context) (commentID : UUID)
  | CommRepoGetByID (ctx : Context) (commentID : UUID)
  | CommRepoGetAllByNewsID (ctx : Context) (newsID : UUID) (query : PaginationQuery)
  (* auth.Repository *)
  | AuthRepoRegister (ctx : Context) (user : User)
  | AuthRepoUpdate (ctx : Context) (user : User)
  | AuthRepoDelete (ctx : Context) (userID : UUID)
  | AuthRepoGetByID (ctx : Context) (userID : UUID)
  | AuthRepoFindByName (ctx : Context) (name : string) (query : PaginationQuery)
  | AuthRepoGetUsers (ctx : Context) (pq : PaginationQuery)
  | AuthRepoFindByEmail (ctx : Context) (loginDTO : LoginDTO)
  (* session.SessRepository *)
  | SessRepoCreateSession (ctx : Context) (session : Session) (expire : Z)
  | SessRepoDeleteByID (ctx : Context) (sessionID : string)
  | SessRepoGetSessionByID (ctx : Context) (sessionID : string)
  (* pkg/utils *)
  | ValidateStruct (ctx : Context) (user : User)
  | ValidateIsOwner (ctx : Context) (creatorID : string)
  | ReadRequestUser (c : Request) (into : User)
  | ReadRequestLogin (c : Request)
  (* methods of models.User *)
  | PrepareCreate (user : User)
  | PrepareUpdate (user : User)
  | ComparePasswords (user : User) (password : string)
  (* pkg/utils/jwt and google/uuid *)
  | GenerateJWTToken (user : User) (cfg : Config)
  | uuid_Parse (s : string).

(** What each operation hands back.  A method that mutates its receiver in
    place ([PrepareCreate], [PrepareUpdate], [ReadRequest]) hands back the
    mutated value. *)
Definition Resp (c : Call) : Type :=
  match c with
  | CommRepoCreate _ _ => result Comment
  | CommRepoUpdate _ _ => result Comment
  | CommRepoDelete _ _ => option error
  | CommRepoGetByID _ _ => result CommentBase
  | CommRepoGetAllByNewsID _ _ _ => result CommentsList
  | AuthRepoRegister _ _ => result User
  | AuthRepoUpdate _ _ => result User
  | AuthRepoDelete _ _ => option error
  | AuthRepoGetByID _ _ => result User
  | AuthRepoFindByName _ _ _ => result UsersList
  | AuthRepoGetUsers _ _ => result UsersList
  | AuthRepoFindByEmail _ _ => result User
  | SessRepoCreateSession _ _ _ => result string
  | SessRepoDeleteByID _ _ => option error
  | SessRepoGetSessionByID _ _ => result Session
  | ValidateStruct _ _ => option error
  | ValidateIsOwner _ _ => option error
  | ReadRequestUser _ _ => result User
  | ReadRequestLogin _ => result LoginDTO
  | PrepareCreate _ => result User
  | PrepareUpdate _ => result User
  | ComparePasswords _ _ => option error
  | GenerateJWTToken _ _ => result string
  | uuid_Parse _ => result UUID
  end.

(** A use case or handler body: a finite tree of operations. *)
Inductive Prog (R : Type) : Type :=
  | Ret (r : R)
  | Vis (c : Call) (k : Resp c -> Prog R).
Arguments Ret {R} r.
Arguments Vis {R} c k.

Fixpoint bind {A B : Type} (p : Prog A) (f : A -> Prog B) : Prog B :=
  match p with
  | Ret a => f a
  | Vis c k => Vis c (fun x => bind (k x) f)
  end.

Definition call (c : Call) : Prog (Resp c) := Vis c Ret.

#[global] Instance Prog_ret : MRet Prog := fun _ a => Ret a.
#[global] Instance Prog_bind : MBind Prog := fun _ _ f p => bind p f.

(** An implementation of the operations over a state [W]. *)
Definition Env (W : Type) : Type := forall c : Call, W -> Resp c * W.

(** The outcome of a run: the returned value, the final state and the calls
    made, first call first. *)
Record Outcome (W R : Type) : Type := mkOutcome {
  value : R;
  final : W;
  trace : list Call;
}.
Arguments mkOutcome {W R} value final trace.
Arguments value {W R} o.
Arguments final {W R} o.
Arguments trace {W R} o.

Fixpoint run {W R : Type} (env : Env W) (p : Prog R) (w : W) : Outcome W R :=
  match p with
  | Ret r => mkOutcome r w []
  | Vis c k =>
      let '(x, w1) := env c w in
      let o := run env (k x) w1 in
      mkOutcome (value o) (final o) (c :: trace o)
  end.

(** ** pkg/utils: context and cookies (in tree) *)

Definition GetRequestID (c : Request) : string := reqID c.

Definition GetCtxWithReqID (c : Request) : Context :=
  {| ctxUser := reqUser c; ctxReqID := GetRequestID c |}.

Definition CreateSessionCookie (cfg : Config) (session : string) : Cookie :=
  {| Name := sessName (cfgSession cfg);
     Value := session;
     Path := "/";
     RawExpires := "";
     MaxAge := sessExpire (cfgSession cfg);
     Secure := cookieSecure (cfgCookie cfg);
     HttpOnly := cookieHttpOnly (cfgCookie cfg);
     SameSite := 0 |}.

Definition ConfigureJWTCookie (cfg : Config) (jwtToken : string) : Cookie :=
  {| Name := cookieName (cfgCookie cfg);
     Value := jwtToken;
     Path := "/";
     RawExpires := "";
     MaxAge := cookieMaxAge (cfgCookie cfg);
     Secure := cookieSecure (cfgCookie cfg);
     HttpOnly := cookieHttpOnly (cfgCookie cfg);
     SameSite := 0 |}.

(** The cookie [DeleteSessionCookie] sets on the response; the unset fields
    are Go zero values. *)
Definition DeleteSessionCookie (sessionName : string) : Cookie :=
  {| Name := sessionName;
     Value := "";
     Path := "/";
     RawExpires := "";
     MaxAge := -1;
     Secure := false;
     HttpOnly := false;
     SameSite := 0 |}.

Definition GetUserFromCtx (ctx : Context) : result User :=
  match ctxUser ctx with
  | Some user => Ok user
  | None => Err errors_Unauthorized
  end.

(** ** Comments use case *)

Module commentsUC.

Definition Create (ctx : Context) (comment : Comment) : Prog (result Comment) :=
  call (CommRepoCreate ctx comment).

Definition Update (ctx : Context) (comment : Comment) : Prog (result Comment) :=
  r ← call (CommRepoGetByID ctx (CommentID comment));
  match r with
  | Err err => Ret (Err err)
  | Ok comm =>
      verr ← call (ValidateIsOwner ctx (UUID_String (cbAuthorID comm)));
      match verr with
      | Some err => Ret (Err (Wrap err "commentsUC Update ValidateIsOwner"))
      | None =>
          r2 ← call (CommRepoUpdate ctx comment);
          match r2 with
          | Err err => Ret (Err err)
          | Ok updatedComment => Ret (Ok updatedComment)
          end
      end
  end.

Definition Delete (ctx : Context) (commentID : UUID) : Prog (option error) :=
  r ← call (CommRepoGetByID ctx commentID);
  match r with
  | Err err => Ret (Some err)
  | Ok comm =>
      verr ← call (ValidateIsOwner ctx (UUID_String (cbAuthorID comm)));
      match verr with
      | Some err => Ret (Some (Wrap err "commentsUC Delete ValidateIsOwner"))
      | None =>
          derr ← call (CommRepoDelete ctx commentID);
          match derr with
          | Some err => Ret (Some err)
          | None => Ret None
          end
      end
  end.

Definition GetByID (ctx : Context) (commentID : UUID) : Prog (result CommentBase) :=
  call (CommRepoGetByID ctx commentID).

Definition GetAllByNewsID (ctx : Context) (newsID : UUID) (query : PaginationQuery)
  : Prog (result CommentsList) :=
  call (CommRepoGetAllByNewsID ctx newsID query).

End commentsUC.

(** ** models.User: sanitizing *)

(** Modelled from the spec: [SanitizePassword], a method of [models.User]
    whose source is outside this tree.  It clears the password-hash field in
    place and is idempotent. *)
Definition SanitizePassword (u : User) : User :=
  {| UserID := UserID u; FirstName := FirstName u; Email := Email u; Password := "" |}.

(** ** Auth use case *)

Module authUC.
Section WithConfig.

Variable cfg : Config.

Definition Register (ctx : Context) (user : User) : Prog (result UserWithToken) :=
  verr ← call (ValidateStruct ctx user);
  match verr with
  | Some err => Ret (Err err)
  | None =>
      p ← call (PrepareCreate user);
      match p with
      | Err err => Ret (Err (NewBadRequestError err))
      | Ok user =>
          r ← call (AuthRepoRegister ctx user);
          match r with
          | Err err => Ret (Err err)
          | Ok createdUser =>
              let createdUser := SanitizePassword createdUser in
              t ← call (GenerateJWTToken createdUser cfg);
              match t with
              | Err err => Ret (Err err)
              | Ok token => Ret (Ok {| uwtUser := createdUser; Token := token |})
              end
          end
      end
  end.

Definition Update (ctx : Context) (user : User) : Prog (result User) :=
  verr ← call (ValidateStruct ctx user);
  match verr with
  | Some err => Ret (Err err)
  | None =>
      p ← call (PrepareUpdate user);
      match p with
      | Err err => Ret (Err err)
      | Ok user =>
          r ← call (AuthRepoUpdate ctx user);
          match r with
          | Err err => Ret (Err err)
          | Ok updatedUser =>
              let updatedUser := SanitizePassword updatedUser in
              Ret (Ok updatedUser)
          end
      end
  end.

Definition Delete (ctx : Context) (userID : UUID) : Prog (option error) :=
  derr ← call (AuthRepoDelete ctx userID);
  match derr with
  | Some err => Ret (Some err)
  | None => Ret None
  end.

Definition GetByID (ctx : Context) (userID : UUID) : Prog (result User) :=
  r ← call (AuthRepoGetByID ctx userID);
  match r with
  | Err err => Ret (Err err)
  | Ok user =>
      let user := SanitizePassword user in
      Ret (Ok user)
  end.

Definition FindByName (ctx : Context) (name : string) (query : PaginationQuery)
  : Prog (result UsersList) :=
  call (AuthRepoFindByName ctx name query).

Definition GetUsers (ctx : Context) (pq : PaginationQuery) : Prog (result UsersList) :=
  r ← call (AuthRepoGetUsers ctx pq);
  match r with
  | Err err => Ret (Err err)
  | Ok users => Ret (Ok users)
  end.

Definition Login (ctx : Context) (loginDTO : LoginDTO) : Prog (result UserWithToken) :=
  r ← call (AuthRepoFindByEmail ctx loginDTO);
  match r with
  | Err err => Ret (Err err)
  | Ok user =>
      cerr ← call (ComparePasswords user (loginPassword loginDTO));
      match cerr with
      | Some err => Ret (Err err)
      | None =>
          let user := SanitizePassword user in
          t ← call (GenerateJWTToken user cfg);
          match t with
          | Err err => Ret (Err err)
          | Ok token => Ret (Ok {| uwtUser := user; Token := token |})
          end
      end
  end.

End WithConfig.
End authUC.

(** ** Session use case *)

Module sessUC.

Definition CreateSession (ctx : Context) (session : Session) (expire : Z)
  : Prog (result string) :=
  call (SessRepoCreateSession ctx session expire).

Definition DeleteByID (ctx : Context) (sessionID : string) : Prog (option error) :=
  call (SessRepoDeleteByID ctx sessionID).

Definition GetSessionByID (ctx : Context) (sessionID : string) : Prog (result Session) :=
  call (SessRepoGetSessionByID ctx sessionID).

End sessUC.

(** ** Auth HTTP handlers *)

(** What a handler writes: the body given to [c.JSON]. *)
Inductive Body : Type :=
  | BodyUser (u : User)
  | BodyUserWithToken (u : UserWithToken)
  | BodyUsersList (l : UsersList)
  | BodyError (e : error).

(** [ErrResponse err] stands for [utils.ErrResponseWithLog(c, err)]: the
    error logged and rendered by [httpErrors] with the status of its kind. *)
Inductive Response : Type :=
  | JSON (status : Z) (body : Body)
  | NoContent (status : Z)
  | ErrResponse (err : error).

Record Reply : Type := mkReply {
  setCookies : list Cookie;
  response : Response;
}.

Definition StatusOK : Z := 200.
Definition StatusCreated : Z := 201.
Definition StatusUnauthorized : Z := 401.
Definition StatusInternalServerError : Z := 500.

(** A reply that reports success: a 2xx status written by the handler. *)
Definition succeeded (r : Reply) : bool :=
  match response r with
  | JSON status _ | NoContent status => (200 <=? status) && (status <? 300)
  | ErrResponse _ => false
  end.

(** [c.Param name]: the empty string when the route has no such parameter. *)
Fixpoint Param (name : string) (params : list (string * string)) : string :=
  match params with
  | [] => ""
  | (k, v) :: rest => if String.eqb k name then v else Param name rest
  end.

(** [c.Cookie name] ([http.Request.Cookie]): the first cookie of that name,
    [http.ErrNoCookie] when there is none. *)
Fixpoint CookieByName (name : string) (cookies : list Cookie) : result Cookie :=
  match cookies with
  | [] => Err ErrNoCookie
  | ck :: rest => if String.eqb (Name ck) name then Ok ck else CookieByName name rest
  end.

(** [errors.Is err target] for a sentinel target. *)
Definition errors_Is (err target : error) : bool := bool_decide (err = target).

(** The zero value [&models.User{}]. *)
Definition emptyUser : User :=
  {| UserID := MkUUID ""; FirstName := ""; Email := ""; Password := "" |}.

Definition withUserID (u : User) (id : UUID) : User :=
  {| UserID := id; FirstName := FirstName u; Email := Email u; Password := Password u |}.

Module handlers.
Section WithConfig.

Variable cfg : Config.

Definition Register (c : Request) : Prog Reply :=
  let ctx := GetCtxWithReqID c in
  let user := emptyUser in
  rd ← call (ReadRequestUser c user);
  match rd with
  | Err err => Ret (mkReply [] (ErrResponse err))
  | Ok user =>
      r ← authUC.Register cfg ctx user;
      match r with
      | Err err => Ret (mkReply [] (ErrResponse err))
      | Ok createdUser =>
          s ← sessUC.CreateSession ctx
                {| SessionID := ""; sessUserID := UserID (uwtUser createdUser) |}
                (sessExpire (cfgSession cfg));
          match s with
          | Err err => Ret (mkReply [] (ErrResponse err))
          | Ok sess =>
              Ret (mkReply [CreateSessionCookie cfg sess]
                     (JSON StatusCreated (BodyUserWithToken createdUser)))
          end
      end
  end.

(** The handler passes the use case a value holding only the e-mail and
    the password read from the request. *)
Definition Login (c : Request) : Prog Reply :=
  let ctx := GetCtxWithReqID c in
  rd ← call (ReadRequestLogin c);
  match rd with
  | Err err => Ret (mkReply [] (ErrResponse err))
  | Ok login =>
      r ← authUC.Login cfg ctx
            {| loginEmail := loginEmail login; loginPassword := loginPassword login |};
      match r with
      | Err err => Ret (mkReply [] (ErrResponse err))
      | Ok userWithToken =>
          s ← sessUC.CreateSession ctx
                {| SessionID := ""; sessUserID := UserID (uwtUser userWithToken) |}
                (sessExpire (cfgSession cfg));
          match s with
          | Err err => Ret (mkReply [] (ErrResponse err))
          | Ok sess =>
              Ret (mkReply [CreateSessionCookie cfg sess]
                     (JSON StatusOK (BodyUserWithToken userWithToken)))
          end
      end
  end.

Definition Logout (c : Request) : Prog Reply :=
  let ctx := GetCtxWithReqID c in
  match CookieByName "session-id" (reqCookies c) with
  | Err err =>
      if errors_Is err ErrNoCookie
      then Ret (mkReply [] (JSON StatusUnauthorized (BodyError (NewUnauthorizedError err))))
      else Ret (mkReply [] (JSON StatusInternalServerError
                              (BodyError (NewInternalServerError err))))
  | Ok cookie =>
      derr ← sessUC.DeleteByID ctx (Value cookie);
      match derr with
      | Some err => Ret (mkReply [] (ErrResponse err))
      | None =>
          Ret (mkReply [DeleteSessionCookie (sessName (cfgSession cfg))]
                 (NoContent StatusOK))
      end
  end.

Definition Update (c : Request) : Prog Reply :=
  let ctx := GetCtxWithReqID c in
  pr ← call (uuid_Parse (Param "user_id" (reqParams c)));
  match pr with
  | Err err => Ret (mkReply [] (ErrResponse err))
  | Ok uID =>
      let user := withUserID emptyUser uID in
      rd ← call (ReadRequestUser c user);
      match rd with
      | Err err => Ret (mkReply [] (ErrResponse err))
      | Ok user =>
          r ← authUC.Update ctx user;
          match r with
          | Err err => Ret (mkReply [] (ErrResponse err))
          | Ok updatedUser => Ret (mkReply [] (JSON StatusOK (BodyUser updatedUser)))
          end
      end
  end.

Definition GetUserByID (c : Request) : Prog Reply :=
  let ctx := GetCtxWithReqID c in
  pr ← call (uuid_Parse (Param "user_id" (reqParams c)));
  match pr with
  | Err err => Ret (mkReply [] (ErrResponse err))
  | Ok uID =>
      r ← authUC.GetByID ctx uID;
      match r with
      | Err err => Ret (mkReply [] (ErrResponse err))
      | Ok user => Ret (mkReply [] (JSON StatusOK (BodyUser user)))
      end
  end.

Definition Delete (c : Request) : Prog Reply :=
  let ctx := GetCtxWithReqID c in
  pr ← call (uuid_Parse (Param "user_id" (reqParams c)));
  match pr with
  | Err err => Ret (mkReply [] (ErrResponse err))
  | Ok uID =>
      derr ← authUC.Delete ctx uID;
      match derr with
      | Some err => Ret (mkReply [] (ErrResponse err))
      | None => Ret (mkReply [] (NoContent StatusOK))
      end
  end.

End WithConfig.
End handlers.

(** ** Ownership guard *)

Module utils.

(** Modelled from the spec: [utils.ValidateIsOwner], whose source is
    outside this tree.  The acting identity is the one [GetUserFromCtx]
    finds in the context; the check succeeds when it is the resource's
    owning identity and fails with [ForbiddenError] otherwise. *)
Definition ValidateIsOwner (ctx : Context) (creatorID : string) : option error :=
  match GetUserFromCtx ctx with
  | Err err => Some err
  | Ok user =>
      if String.eqb (UUID_String (UserID user)) creatorID
      then None
      else Some (Tagged ForbiddenError)
  end.

End utils.

(** ** Token issuer *)

Module jwt.

Record Claims : Type := mkClaims {
  sub : string;
  iat : Z;
  exp : Z;
}.

Record SignedToken : Type := mkSignedToken {
  claims : Claims;
  signature : Z;
}.

Section WithMac.

(** The signature: a deterministic function of the shared secret and the
    claims. *)
Variable mac : string -> Claims -> Z.

(** Modelled from the spec: [GenerateToken] of the token issuer (package
    [jwt], outside this tree).  It embeds the subject, the issue instant
    [now] and [now + ttl] as expiry, and fails with [SigningError] on an
    empty secret. *)
Definition GenerateToken (now : Z) (id : UUID) (secret : string) (ttl : Z)
  : result SignedToken :=
  if String.eqb secret ""
  then Err (Tagged SigningError)
  else
    let c := {| sub := UUID_String id; iat := now; exp := now + ttl |} in
    Ok {| claims := c; signature := mac secret c |}.

(** Modelled from the spec: [VerifyToken] of the token issuer (package
    [jwt], outside this tree).  The signature is checked first; only a
    token whose signature verifies is checked for expiry. *)
Definition VerifyToken (now : Z) (token : SignedToken) (secret : string)
  : result Claims :=
  if negb (signature token =? mac secret (claims token))
  then Err (Tagged InvalidTokenError)
  else if exp (claims token) <=? now
  then Err (Tagged ExpiredTokenError)
  else Ok (claims token).

End WithMac.

(** A keyed checksum, enough to run the issuer on concrete tokens. *)
Fixpoint checksum (s : string) : Z :=
  match s with
  | EmptyString => 7
  | String a rest => (Z.of_nat (Ascii.nat_of_ascii a) + 131 * checksum rest) mod 4294967296
  end.

Definition toyMac (secret : string) (c : Claims) : Z :=
  (checksum secret * 1000003 + checksum (sub c) * 8191 + iat c * 31 + exp c)
    mod 4294967296.

End jwt.

(** ** An in-memory implementation of the operations *)

(** The state behind the repositories: the user directory, the comments
    table, the key-value backend of the session store (each record with the
    instant it expires at), the clock, whether the backend is reachable, and
    the number of session ids drawn so far. *)
Record World : Type := mkWorld {
  users : list User;
  commentsTable : list Comment;
  kv : gmap string (Session * Z);
  now : Z;
  kvUp : bool;
  drawn : nat;
}.

Definition tick (d : Z) (w : World) : World :=
  {| users := users w; commentsTable := commentsTable w; kv := kv w;
     now := now w + d; kvUp := kvUp w; drawn := drawn w |}.

Definition with_users (us : list User) (w : World) : World :=
  {| users := us; commentsTable := commentsTable w; kv := kv w;
     now := now w; kvUp := kvUp w; drawn := drawn w |}.

Definition with_comments (cs : list Comment) (w : World) : World :=
  {| users := users w; commentsTable := cs; kv := kv w;
     now := now w; kvUp := kvUp w; drawn := drawn w |}.

Module sessRepo.
Section WithIds.

(** The source of session ids: the [n]-th id drawn. *)
Variable newID : nat -> string.

(** Modelled from the spec: [CreateSession] of the session repository
    (outside this tree): [SET id {owner} EX expire] under a fresh id;
    [StoreError] when the backend is unreachable. *)
Definition CreateSession (session : Session) (expire : Z) (w : World)
  : result string * World :=
  if kvUp w then
    let id := newID (drawn w) in
    let stored := {| SessionID := id; sessUserID := sessUserID session |} in
    (Ok id,
     {| users := users w; commentsTable := commentsTable w;
        kv := <[id := (stored, now w + expire)]> (kv w);
        now := now w; kvUp := kvUp w; drawn := S (drawn w) |})
  else (Err (Tagged StoreError), w).

(** Modelled from the spec: [GetSessionByID] of the session repository
    (outside this tree): [GET id]; an absent, deleted or expired record is
    [NotFoundError], an unreachable backend is [StoreError]. *)
Definition GetSessionByID (sessionID : string) (w : World) : result Session * World :=
  if kvUp w then
    match kv w !! sessionID with
    | Some (s, expiresAt) =>
        if now w <? expiresAt then (Ok s, w) else (Err (Tagged NotFoundError), w)
    | None => (Err (Tagged NotFoundError), w)
    end
  else (Err (Tagged StoreError), w).

(** Modelled from the spec: [DeleteByID] of the session repository
    (outside this tree): [DEL id]; deleting an absent record is not an
    error. *)
Definition DeleteByID (sessionID : string) (w : World) : option error * World :=
  if kvUp w then
    (None,
     {| users := users w; commentsTable := commentsTable w;
        kv := delete sessionID (kv w);
        now := now w; kvUp := kvUp w; drawn := drawn w |})
  else (Some (Tagged StoreError), w).

End WithIds.
End sessRepo.

Definition with_drawn (n : nat) (w : World) : World :=
  {| users := users w; commentsTable := commentsTable w; kv := kv w;
     now := now w; kvUp := kvUp w; drawn := n |}.

Definition findUser (id : UUID) (us : list User) : option User :=
  List.find (fun u => bool_decide (UserID u = id)) us.

Definition findComment (id : UUID) (cs : list Comment) : option Comment :=
  List.find (fun c => bool_decide (CommentID c = id)) cs.

(** A column keeps its value when the update carries the empty string. *)
Definition coalesce (new old : string) : string :=
  if String.eqb new "" then old else new.

Module authRepo.
Section WithIds.

Variable newID : nat -> string.

(** Modelled from the spec: [Create] of the user directory (the
    [auth.Repository] implementation is outside this tree): the identity
    is stored under a fresh id and handed back. *)
Definition Register (user : User) (w : World) : result User * World :=
  let created := withUserID user (MkUUID (newID (drawn w))) in
  (Ok created, with_drawn (S (drawn w)) (with_users (users w ++ [created]) w)).

(** Modelled from the spec: [Update] of the user directory (outside this
    tree): the record with the identity's id is overwritten. *)
Definition Update (user : User) (w : World) : result User * World :=
  match findUser (UserID user) (users w) with
  | None => (Err (Tagged NotFoundError), w)
  | Some old =>
      let updated :=
        {| UserID := UserID old;
           FirstName := coalesce (FirstName user) (FirstName old);
           Email := coalesce (Email user) (Email old);
           Password := coalesce (Password user) (Password old) |} in
      (Ok updated,
       with_users
         (map (fun u => if bool_decide (UserID u = UserID user) then updated else u)
              (users w)) w)
  end.

(** Modelled from the spec: [Delete] of the user directory (outside this
    tree). *)
Definition Delete (userID : UUID) (w : World) : option error * World :=
  match findUser userID (users w) with
  | None => (Some (Tagged NotFoundError), w)
  | Some _ =>
      (None,
       with_users (List.filter (fun u => negb (bool_decide (UserID u = userID))) (users w)) w)
  end.

(** Modelled from the spec: [FindByID] of the user directory (outside
    this tree); the stored identity, password hash included. *)
Definition GetByID (userID : UUID) (w : World) : result User * World :=
  match findUser userID (users w) with
  | None => (Err (Tagged NotFoundError), w)
  | Some u => (Ok u, w)
  end.

(** Modelled from the spec: the listing queries of the user directory
    (outside this tree); the stored identities as they are. *)
Definition FindByName (name : string) (w : World) : result UsersList * World :=
  let found := List.filter (fun u => String.eqb (FirstName u) name) (users w) in
  (Ok {| TotalCount := Z.of_nat (length found); Users := found |}, w).

Definition GetUsers (w : World) : result UsersList * World :=
  (Ok {| TotalCount := Z.of_nat (length (users w)); Users := users w |}, w).

(** Modelled from the spec: [FindByEmail] of the user directory (outside
    this tree). *)
Definition FindByEmail (loginDTO : LoginDTO) (w : World) : result User * World :=
  match List.find (fun u => String.eqb (Email u) (loginEmail loginDTO)) (users w) with
  | None => (Err (Tagged NotFoundError), w)
  | Some u => (Ok u, w)
  end.

End WithIds.
End authRepo.

Definition toBase (c : Comment) : CommentBase :=
  {| cbCommentID := CommentID c; cbAuthorID := AuthorID c; cbMessage := Message c |}.

Module commRepo.
Section WithIds.

Variable newID : nat -> string.

(** Modelled from the spec: the comments table behind
    [comments.Repository], whose implementation is outside this tree; a
    plain store keyed by comment id. *)
Definition Create (comment : Comment) (w : World) : result Comment * World :=
  let created :=
    {| CommentID := MkUUID (newID (drawn w)); AuthorID := AuthorID comment;
       NewsID := NewsID comment; Message := Message comment |} in
  (Ok created, with_drawn (S (drawn w)) (with_comments (commentsTable w ++ [created]) w)).

Definition GetByID (commentID : UUID) (w : World) : result CommentBase * World :=
  match findComment commentID (commentsTable w) with
  | None => (Err (Tagged NotFoundError), w)
  | Some c => (Ok (toBase c), w)
  end.

Definition Update (comment : Comment) (w : World) : result Comment * World :=
  match findComment (CommentID comment) (commentsTable w) with
  | None => (Err (Tagged NotFoundError), w)
  | Some old =>
      let updated :=
        {| CommentID := CommentID old; AuthorID := AuthorID old;
           NewsID := NewsID old; Message := Message comment |} in
      (Ok updated,
       with_comments
         (map (fun c => if bool_decide (CommentID c = CommentID comment) then updated else c)
              (commentsTable w)) w)
  end.

Definition Delete (commentID : UUID) (w : World) : option error * World :=
  match findComment commentID (commentsTable w) with
  | None => (Some (Tagged NotFoundError), w)
  | Some _ =>
      (None,
       with_comments
         (List.filter (fun c => negb (bool_decide (CommentID c = commentID)))
                      (commentsTable w)) w)
  end.

Definition GetAllByNewsID (newsID : UUID) (w : World) : result CommentsList * World :=
  let found := List.filter (fun c => bool_decide (NewsID c = newsID)) (commentsTable w) in
  (Ok {| clTotalCount := Z.of_nat (length found); Comments := map toBase found |}, w).

End WithIds.
End commRepo.

(** The remaining helpers, as simple stand-ins that can be run. *)
Module standin.

Definition HashPassword (plaintext : string) : string := "bcrypt:" ++ plaintext.

Definition ValidateStruct (user : User) : option error :=
  if (60 <? Z.of_nat (String.length (Email user)))
  then Some (Tagged ValidationError) else None.

Definition PrepareCreate (user : User) : result User :=
  Ok {| UserID := UserID user; FirstName := FirstName user; Email := Email user;
        Password := HashPassword (Password user) |}.

Definition PrepareUpdate (user : User) : result User := Ok user.

Definition ComparePasswords (user : User) (password : string) : option error :=
  if String.eqb (Password user) (HashPassword password)
  then None else Some (Tagged AuthError).

Definition GenerateJWTToken (user : User) (cfg : Config) : result string :=
  if String.eqb (cfgJwtSecret cfg) ""
  then Err (Tagged SigningError)
  else Ok ("jwt." ++ UUID_String (UserID user)).

(** A hexadecimal digit, folded to lower case; [None] for any other
    character. *)
Definition hexLower (a : Ascii.ascii) : option Ascii.ascii :=
  let n := Ascii.nat_of_ascii a in
  if ((48 <=? n) && (n <=? 57))%nat then Some a
  else if ((97 <=? n) && (n <=? 102))%nat then Some a
  else if ((65 <=? n) && (n <=? 70))%nat then Some (Ascii.ascii_of_nat (n + 32))
  else None.

Fixpoint hexDigits (s : string) : option string :=
  match s with
  | EmptyString => Some EmptyString
  | String a rest =>
      match hexLower a, hexDigits rest with
      | Some a', Some rest' => Some (String a' rest')
      | _, _ => None
      end
  end.

Fixpoint asciiLower (s : string) : string :=
  match s with
  | EmptyString => EmptyString
  | String a rest =>
      let n := Ascii.nat_of_ascii a in
      String (if ((65 <=? n) && (n <=? 90))%nat then Ascii.ascii_of_nat (n + 32) else a)
             (asciiLower rest)
  end.

(** The 36-character form xxxxxxxx-xxxx-xxxx-xxxx-xxxxxxxxxxxx: hyphens at
    8, 13, 18 and 23, hexadecimal digits elsewhere. *)
Definition parseHyphenated (s : string) : result UUID :=
  if String.eqb (String.substring 8 1 s) "-" && String.eqb (String.substring 13 1 s) "-" &&
     String.eqb (String.substring 18 1 s) "-" && String.eqb (String.substring 23 1 s) "-"
  then
    match hexDigits (String.substring 0 8 s), hexDigits (String.substring 9 4 s),
          hexDigits (String.substring 14 4 s), hexDigits (String.substring 19 4 s),
          hexDigits (String.substring 24 12 s) with
    | Some g1, Some g2, Some g3, Some g4, Some g5 =>
        Ok (MkUUID (g1 ++ "-" ++ g2 ++ "-" ++ g3 ++ "-" ++ g4 ++ "-" ++ g5))
    | _, _, _, _, _ => Err (Tagged ValidationError)
    end
  else Err (Tagged ValidationError).

(** [uuid.Parse] of google/uuid: the 36-character form, the same behind
    "urn:uuid:" or inside one character on each side, or 32 bare digits;
    anything else is an error.  The result is the id in canonical text. *)
Definition uuid_Parse (s : string) : result UUID :=
  let n := String.length s in
  if (n =? 36)%nat then parseHyphenated s
  else if (n =? 45)%nat then
    if String.eqb (asciiLower (String.substring 0 9 s)) "urn:uuid:"
    then parseHyphenated (String.substring 9 36 s)
    else Err (Tagged ValidationError)
  else if (n =? 38)%nat then parseHyphenated (String.substring 1 36 s)
  else if (n =? 32)%nat then
    match hexDigits s with
    | Some d =>
        Ok (MkUUID (String.substring 0 8 d ++ "-" ++ String.substring 8 4 d ++ "-" ++
                    String.substring 12 4 d ++ "-" ++ String.substring 16 4 d ++ "-" ++
                    String.substring 20 12 d))
    | None => Err (Tagged ValidationError)
    end
  else Err (Tagged ValidationError).

Fixpoint field (name : string) (body : list (string * string)) : option string :=
  match body with
  | [] => None
  | (k, v) :: rest => if String.eqb k name then Some v else field name rest
  end.

(** Binding a JSON object onto a value: a field the body carries
    overwrites the one already there. *)
Definition ReadRequestUser (c : Request) (into : User) : result User :=
  Ok {| UserID := match field "user_id" (reqBody c) with
                  | Some v => MkUUID v | None => UserID into end;
        FirstName := default (FirstName into) (field "first_name" (reqBody c));
        Email := default (Email into) (field "email" (reqBody c));
        Password := default (Password into) (field "password" (reqBody c)) |}.

Definition ReadRequestLogin (c : Request) : result LoginDTO :=
  let password := default "" (field "password" (reqBody c)) in
  if (Z.of_nat (String.length password) <? 6)
  then Err (Tagged ValidationError)
  else Ok {| loginEmail := default "" (field "email" (reqBody c));
             loginPassword := password |}.

End standin.

Section InMemory.

Variable newID : nat -> string.

Definition memEnv : Env World := fun c =>
  match c as c0 return World -> Resp c0 * World with
  | CommRepoCreate _ comment => commRepo.Create newID comment
  | CommRepoUpdate _ comment => commRepo.Update comment
  | CommRepoDelete _ commentID => commRepo.Delete commentID
  | CommRepoGetByID _ commentID => commRepo.GetByID commentID
  | CommRepoGetAllByNewsID _ newsID _ => commRepo.GetAllByNewsID newsID
  | AuthRepoRegister _ user => authRepo.Register newID user
  | AuthRepoUpdate _ user => authRepo.Update user
  | AuthRepoDelete _ userID => authRepo.Delete userID
  | AuthRepoGetByID _ userID => authRepo.GetByID userID
  | AuthRepoFindByName _ name _ => authRepo.FindByName name
  | AuthRepoGetUsers _ _ => authRepo.GetUsers
  | AuthRepoFindByEmail _ loginDTO => authRepo.FindByEmail loginDTO
  | SessRepoCreateSession _ session expire => sessRepo.CreateSession newID session expire
  | SessRepoDeleteByID _ sessionID => sessRepo.DeleteByID sessionID
  | SessRepoGetSessionByID _ sessionID => sessRepo.GetSessionByID sessionID
  | ValidateStruct _ user => fun w => (standin.ValidateStruct user, w)
  | ValidateIsOwner ctx creatorID => fun w => (utils.ValidateIsOwner ctx creatorID, w)
  | ReadRequestUser c into => fun w => (standin.ReadRequestUser c into, w)
  | ReadRequestLogin c => fun w => (standin.ReadRequestLogin c, w)
  | PrepareCreate user => fun w => (standin.PrepareCreate user, w)
  | PrepareUpdate user => fun w => (standin.PrepareUpdate user, w)
  | ComparePasswords user password => fun w => (standin.ComparePasswords user password, w)
  | GenerateJWTToken user cfg => fun w => (standin.GenerateJWTToken user cfg, w)
  | uuid_Parse s => fun w => (standin.uuid_Parse s, w)
  end.

End InMemory.

(** Session ids for concrete runs. *)
Definition seqID (n : nat) : string := "id-" ++ pretty n.

(** A program never issues a call satisfying [P], whatever the answers. *)
Fixpoint never {R : Type} (P : Call -> Prop) (p : Prog R) : Prop :=
  match p with
  | Ret _ => True
  | Vis c k => ~ P c /\ forall x, never P (k x)
  end.

Definition isValidateIsOwner (c : Call) : Prop :=
  match c with ValidateIsOwner _ _ => True | _ => False end.

Definition isAuthRepoDelete (c : Call) : Prop :=
  match c with AuthRepoDelete _ _ => True | _ => False end.

(** The calls that change an owned resource. *)
Definition isMutation (c : Call) : Prop :=
  match c with
  | CommRepoUpdate _ _ | CommRepoDelete _ _ | AuthRepoUpdate _ _ | AuthRepoDelete _ _ => True
  | _ => False
  end.

(** ** Concrete configurations, identities and states *)

Definition cfgSid : Config :=
  {| cfgSession := {| sessName := "sid"; sessExpire := 60 |};
     cfgCookie := {| cookieName := "jwt-token"; cookieMaxAge := 3600;
                     cookieSecure := true; cookieHttpOnly := true |};
     cfgJwtSecret := "s3" |}.

Definition aliceID : UUID := MkUUID "a11ce000-0000-4000-8000-000000000001".
Definition bobID : UUID := MkUUID "b0b00000-0000-4000-8000-000000000002".

Definition alice : User :=
  {| UserID := aliceID; FirstName := "alice"; Email := "a@x.com";
     Password := "bcrypt:secret1" |}.

Definition bob : User :=
  {| UserID := bobID; FirstName := "bob"; Email := "b@x.com";
     Password := "bcrypt:secret2" |}.

Definition bobsComment : Comment :=
  {| CommentID := MkUUID "c-1"; AuthorID := bobID; NewsID := MkUUID "n-1";
     Message := "first" |}.

Definition worldEmpty : World :=
  {| users := []; commentsTable := []; kv := ∅; now := 1000; kvUp := true; drawn := 0 |}.

Definition worldAB : World :=
  {| users := [alice; bob]; commentsTable := [bobsComment]; kv := ∅;
     now := 1000; kvUp := true; drawn := 0 |}.

Definition worldDown : World :=
  {| users := []; commentsTable := []; kv := ∅; now := 1000; kvUp := false; drawn := 0 |}.

Definition ctxAnon : Context := {| ctxUser := None; ctxReqID := "req-1" |}.
Definition ctxAlice : Context := {| ctxUser := Some alice; ctxReqID := "req-1" |}.

Definition pq0 : PaginationQuery := {| Size := 10; Page := 1; OrderBy := "" |}.

(** POST /auth/register with a fresh e-mail and password. *)
Definition rqRegister : Request :=
  {| reqParams := []; reqCookies := [];
     reqBody := [("email", "c@x.com"); ("password", "secret3")];
     reqUser := None; reqID := "req-1" |}.

(** POST /auth/login as alice. *)
Definition rqLogin : Request :=
  {| reqParams := []; reqCookies := [];
     reqBody := [("email", "a@x.com"); ("password", "secret1")];
     reqUser := None; reqID := "req-1" |}.

(** PUT and DELETE on /auth/b0b00000-0000-4000-8000-000000000002 (bob's
    id), sent by alice. *)
Definition rqUpdateBob : Request :=
  {| reqParams := [("user_id", UUID_String bobID)]; reqCookies := [];
     reqBody := [("first_name", "mallory")];
     reqUser := Some alice; reqID := "req-2" |}.

Definition rqDeleteBob : Request :=
  {| reqParams := [("user_id", UUID_String bobID)]; reqCookies := []; reqBody := [];
     reqUser := Some alice; reqID := "req-3" |}.

(** A cookie as a browser sends it back: name and value. *)
Definition sentCookie (name value : string) : Cookie :=
  {| Name := name; Value := value; Path := ""; RawExpires := ""; MaxAge := 0;
     Secure := false; HttpOnly := false; SameSite := 0 |}.

(** POST /auth/logout carrying the given cookies. *)
Definition rqLogout (cookies : list Cookie) : Request :=
  {| reqParams := []; reqCookies := cookies; reqBody := [];
     reqUser := None; reqID := "req-4" |}.

(** ** Further call classes and the cache key of the comments use case *)

Definition basePrefix : string := "api-comments:".

(** [createKey]: [fmt.Sprintf("%s: %s", basePrefix, commentID)]. *)
Definition createKey (commentID : string) : string :=
  basePrefix ++ ": " ++ commentID.

(** The identity a call hands to the token generator carries no hash. *)
Definition tokenForSanitized (c : Call) : Prop :=
  match c with
  | GenerateJWTToken user _ => Password user = ""%string
  | _ => True
  end.

Definition isSessRepoCreateSession (c : Call) : Prop :=
  match c with SessRepoCreateSession _ _ _ => True | _ => False end.

(** The calls that reach a repository. *)
Definition isRepoCall (c : Call) : Prop :=
  match c with
  | CommRepoCreate _ _ | CommRepoUpdate _ _ | CommRepoDelete _ _
  | CommRepoGetByID _ _ | CommRepoGetAllByNewsID _ _ _
  | AuthRepoRegister _ _ | AuthRepoUpdate _ _ | AuthRepoDelete _ _
  | AuthRepoGetByID _ _ | AuthRepoFindByName _ _ _ | AuthRepoGetUsers _ _
  | AuthRepoFindByEmail _ _
  | SessRepoCreateSession _ _ _ | SessRepoDeleteByID _ _ | SessRepoGetSessionByID _ _ => True
  | _ => False
  end.

Definition cfgNoSecret : Config :=
  {| cfgSession := {| sessName := "session-id"; sessExpire := 60 |};
     cfgCookie := {| cookieName := "jwt-token"; cookieMaxAge := 3600;
                     cookieSecure := true; cookieHttpOnly := true |};
     cfgJwtSecret := "" |}.

Definition carol : User :=
  {| UserID := MkUUID ""; FirstName := "carol"; Email := "c@x.com"; Password := "secret3" |}.

(** GET /auth/ with no user id in the route. *)
Definition rqNoID : Request :=
  {| reqParams := []; reqCookies := []; reqBody := []; reqUser := None; reqID := "req-5" |}.

(** GET /auth/a11ce000-0000-4000-8000-000000000001 (alice's id). *)
Definition rqGetAlice : Request :=
  {| reqParams := [("user_id", UUID_String aliceID)]; reqCookies := []; reqBody := [];
     reqUser := None; reqID := "req-6" |}.

(** POST /auth/login with a password too short to be accepted. *)
Definition rqBadLogin : Request :=
  {| reqParams := []; reqCookies := [];
     reqBody := [("email", "a@x.com"); ("password", "abc")];
     reqUser := None; reqID := "req-7" |}.

(** The two shapes a reply of [Register] or [Login] can take: an error with
    no cookie, or the given status with the session cookie and a user whose
    hash is cleared. *)
Definition sessionReply (cfg : Config) (status : Z) (r : Reply) : Prop :=
  (exists e, r = mkReply [] (ErrResponse e)) \/
  (exists u sess,
      r = mkReply [CreateSessionCookie cfg sess] (JSON status (BodyUserWithToken u)) /\
      Password (uwtUser u) = ""%string).

(** What [Logout] answers once the session repository has answered. *)
Definition logoutReply (cfg : Config) (answer : option error) : Reply :=
  match answer with
  | Some err => mkReply [] (ErrResponse err)
  | None => mkReply [DeleteSessionCookie (sessName (cfgSession cfg))] (NoContent StatusOK)
  end.

Definition ctxBob : Context := {| ctxUser := Some bob; ctxReqID := "req-1" |}.

(** ** Running programs: general facts *)

Lemma run_bind {W A B : Type} (env : Env W) (p : Prog A) (f : A -> Prog B) (w : W) :
  run env (bind p f) w =
  let o1 := run env p w in
  let o2 := run env (f (value o1)) (final o1) in
  mkOutcome (value o2) (final o2) (trace o1 ++ trace o2).
Proof.
  revert w. induction p as [r | c k IH]; intros w; simpl.
  - destruct (run env (f r) w); reflexivity.
  - destruct (env c w) as [x w1]. rewrite IH. reflexivity.
Qed.

Lemma run_vis {W R : Type} (env : Env W) (c : Call) (k : Resp c -> Prog R) (w : W) :
  run env (Vis c k) w =
  let o := run env (k (env c w).1) (env c w).2 in
  mkOutcome (value o) (final o) (c :: trace o).
Proof. simpl. destruct (env c w) as [x w1]. reflexivity. Qed.

(** Unfold the calls of a straight-line program one by one. *)
Ltac run_calls := unfold call; rewrite ?run_vis; cbn [run value final trace].

Lemma never_trace {W R : Type} (P : Call -> Prop) (p : Prog R) :
  never P p -> forall (env : Env W) (w : W), Forall (fun c => ~ P c) (trace (run env p w)).
Proof.
  induction p as [r | c k IH]; intros Hn env w; simpl.
  - constructor.
  - destruct Hn as [Hc Hk]. destruct (env c w) as [x w1]. simpl.
    constructor; [exact Hc | apply IH, Hk].
Qed.

Lemma never_bind {A B : Type} (P : Call -> Prop) (p : Prog A) (f : A -> Prog B) :
  never P p -> (forall a, never P (f a)) -> never P (bind p f).
Proof.
  intros Hp Hf. induction p as [r | c k IH]; simpl in *.
  - apply Hf.
  - destruct Hp as [Hc Hk]. split; [exact Hc | intros x; apply IH, Hk].
Qed.

(** ** Cookies *)

(** C8: for every configuration and session id, the session cookie carries
    the session id as value, path "/", the configured session TTL as max-age
    and the secure / http-only flags of the configuration. *)
Theorem CreateSessionCookie_fields (cfg : Config) (session : string) :
  let ck := CreateSessionCookie cfg session in
  Name ck = sessName (cfgSession cfg) /\
  Value ck = session /\
  Path ck = "/"%string /\
  MaxAge ck = sessExpire (cfgSession cfg) /\
  Secure ck = cookieSecure (cfgCookie cfg) /\
  HttpOnly ck = cookieHttpOnly (cfgCookie cfg).
Proof. now repeat split. Qed.

(** ** Token issuer *)

Section TokenIssuer.

Variable mac : string -> jwt.Claims -> Z.

Lemma VerifyToken_before_expiry (now t : Z) (id : UUID) (secret : string) (ttl : Z)
      (tok : jwt.SignedToken) :
  jwt.GenerateToken mac now id secret ttl = Ok tok ->
  t < now + ttl ->
  jwt.VerifyToken mac t tok secret = Ok (jwt.claims tok) /\
  jwt.sub (jwt.claims tok) = UUID_String id.
Proof.
  unfold jwt.GenerateToken, jwt.VerifyToken. intros Hgen Ht.
  destruct (String.eqb secret ""); [discriminate |].
  injection Hgen as <-. simpl. rewrite Z.eqb_refl. simpl.
  destruct (Z.leb_spec (now + ttl) t); [lia | auto].
Qed.

Lemma VerifyToken_after_expiry (now t : Z) (id : UUID) (secret : string) (ttl : Z)
      (tok : jwt.SignedToken) :
  jwt.GenerateToken mac now id secret ttl = Ok tok ->
  now + ttl <= t ->
  jwt.VerifyToken mac t tok secret = Err (Tagged ExpiredTokenError).
Proof.
  unfold jwt.GenerateToken, jwt.VerifyToken. intros Hgen Ht.
  destruct (String.eqb secret ""); [discriminate |].
  injection Hgen as <-. simpl. rewrite Z.eqb_refl. simpl.
  destruct (Z.leb_spec (now + ttl) t); [reflexivity | lia].
Qed.

(** C4: a token whose signature does not verify under the supplied secret
    is rejected with [InvalidTokenError], never [ExpiredTokenError],
    whatever instant it is verified at and whatever expiry it embeds. *)
Theorem VerifyToken_signature_first (now : Z) (token : jwt.SignedToken) (secret : string) :
  jwt.signature token <> mac secret (jwt.claims token) ->
  jwt.VerifyToken mac now token secret = Err (Tagged InvalidTokenError) /\
  jwt.VerifyToken mac now token secret <> Err (Tagged ExpiredTokenError).
Proof.
  intros Hsig. unfold jwt.VerifyToken.
  destruct (Z.eqb_spec (jwt.signature token) (mac secret (jwt.claims token))) as [He | _].
  - contradiction.
  - simpl. split; [reflexivity | discriminate].
Qed.

(** C5: for every identity id, every non-empty secret and every ttl > 0,
    generating a token succeeds and verifying it under the same secret
    returns claims whose subject is the id. *)
Theorem GenerateToken_VerifyToken (now : Z) (id : UUID) (secret : string) (ttl : Z) :
  secret <> ""%string ->
  0 < ttl ->
  exists tok c,
    jwt.GenerateToken mac now id secret ttl = Ok tok /\
    jwt.VerifyToken mac now tok secret = Ok c /\
    jwt.sub c = UUID_String id.
Proof.
  intros Hsecret Httl.
  destruct (jwt.GenerateToken mac now id secret ttl) as [tok | e] eqn:Hgen.
  - exists tok, (jwt.claims tok).
    destruct (VerifyToken_before_expiry now now id secret ttl tok Hgen) as [Hv Hs]; [lia |].
    auto.
  - exfalso. unfold jwt.GenerateToken in Hgen.
    destruct (String.eqb_spec secret ""); [contradiction | discriminate].
Qed.

End TokenIssuer.

(** A token forged for another subject with an expiry long past: rejected as
    invalid. *)
Lemma VerifyToken_signature_first_witness :
  let forged := {| jwt.claims := {| jwt.sub := "admin"; jwt.iat := 0; jwt.exp := 1 |};
                   jwt.signature := 42 |} in
  jwt.VerifyToken jwt.toyMac 1000 forged "s3" = Err (Tagged InvalidTokenError) /\
  jwt.VerifyToken jwt.toyMac 1000 forged "s3" <> Err (Tagged ExpiredTokenError).
Proof.
  apply (VerifyToken_signature_first jwt.toyMac 1000
           {| jwt.claims := {| jwt.sub := "admin"; jwt.iat := 0; jwt.exp := 1 |};
              jwt.signature := 42 |} "s3").
  vm_compute. discriminate.
Defined.

Lemma GenerateToken_VerifyToken_witness :
  exists tok c,
    jwt.GenerateToken jwt.toyMac 1000 (MkUUID "u-1") "s3" 60 = Ok tok /\
    jwt.VerifyToken jwt.toyMac 1000 tok "s3" = Ok c /\
    jwt.sub c = "u-1"%string.
Proof.
  apply (GenerateToken_VerifyToken jwt.toyMac 1000 (MkUUID "u-1") "s3" 60).
  - discriminate.
  - lia.
Defined.

(** ** Session use case *)

Section SessionStore.

Variable newID : nat -> string.

Lemma backend_down_is_StoreError (w : World) (ctx : Context) (session : Session)
      (expire : Z) (sessionID : string) :
  kvUp w = false ->
  (memEnv newID (SessRepoCreateSession ctx session expire) w).1 = Err (Tagged StoreError) /\
  (memEnv newID (SessRepoGetSessionByID ctx sessionID) w).1 = Err (Tagged StoreError) /\
  (memEnv newID (SessRepoDeleteByID ctx sessionID) w).1 = Some (Tagged StoreError).
Proof.
  intros Hdown. simpl.
  unfold sessRepo.CreateSession, sessRepo.GetSessionByID, sessRepo.DeleteByID.
  rewrite Hdown. auto.
Qed.

Lemma GetSessionByID_after_DeleteByID (w : World) (ctx : Context) (s : string) :
  kvUp w = true ->
  let del := run (memEnv newID) (sessUC.DeleteByID ctx s) w in
  value del = None /\
  value (run (memEnv newID) (sessUC.GetSessionByID ctx s) (final del))
    = Err (Tagged NotFoundError).
Proof.
  intros Hup. unfold sessUC.DeleteByID, sessUC.GetSessionByID.
  run_calls. simpl.
  unfold sessRepo.DeleteByID. rewrite Hup. simpl.
  unfold sessRepo.GetSessionByID. simpl.
  rewrite lookup_delete_eq. auto.
Qed.

(** A record whose TTL has elapsed is reported like an absent one. *)
Lemma GetSessionByID_after_ttl (w : World) (ctx : Context) (session : Session)
      (ttl d : Z) (s : string) :
  value (run (memEnv newID) (sessUC.CreateSession ctx session ttl) w) = Ok s ->
  ttl <= d ->
  let w1 := final (run (memEnv newID) (sessUC.CreateSession ctx session ttl) w) in
  value (run (memEnv newID) (sessUC.GetSessionByID ctx s) (tick d w1))
    = Err (Tagged NotFoundError).
Proof.
  unfold sessUC.CreateSession, sessUC.GetSessionByID. run_calls. simpl.
  unfold sessRepo.CreateSession. destruct (kvUp w) eqn:Hup; simpl; [| discriminate].
  intros [= <-] Hd. unfold sessRepo.GetSessionByID. simpl.
  rewrite lookup_insert_eq.
  destruct (Z.ltb_spec (now w + d) (now w + ttl)); [lia | reflexivity].
Qed.

(** C6: once [CreateSession] for an owner with a TTL of 60 has returned a
    session id, reading that id at once yields a session of that owner;
    deleting it succeeds, and reading it afterwards fails with
    [NotFoundError]. *)
Theorem CreateSession_GetSessionByID_DeleteByID
        (w : World) (ctx : Context) (owner : UUID) (sid0 s : string) :
  let session := {| SessionID := sid0; sessUserID := owner |} in
  let created := run (memEnv newID) (sessUC.CreateSession ctx session 60) w in
  value created = Ok s ->
  (exists sess,
      value (run (memEnv newID) (sessUC.GetSessionByID ctx s) (final created)) = Ok sess /\
      sessUserID sess = owner) /\
  let deleted := run (memEnv newID) (sessUC.DeleteByID ctx s) (final created) in
  value deleted = None /\
  value (run (memEnv newID) (sessUC.GetSessionByID ctx s) (final deleted))
    = Err (Tagged NotFoundError).
Proof.
  intros session created Hcreated.
  assert (Hup : kvUp w = true /\ kvUp (final created) = true /\
                kv (final created) !! s = Some ({| SessionID := s; sessUserID := owner |},
                                                 now (final created) + 60)).
  { subst created. unfold sessUC.CreateSession in *. unfold call in *. rewrite run_vis in *. simpl in *.
    unfold sessRepo.CreateSession in *.
    destruct (kvUp w) eqn:Hup; simpl in *; [| discriminate].
    injection Hcreated as <-. rewrite lookup_insert_eq. auto. }
  destruct Hup as (Hup & Hup1 & Hkv). split.
  - exists {| SessionID := s; sessUserID := owner |}.
    unfold sessUC.GetSessionByID. run_calls. simpl.
    unfold sessRepo.GetSessionByID. rewrite Hup1, Hkv.
    destruct (Z.ltb_spec (now (final created)) (now (final created) + 60)); [auto | lia].
  - apply GetSessionByID_after_DeleteByID. exact Hup1.
Qed.

End SessionStore.

(** C7: whatever implements the session repository, when it reports a
    backend failure ([StoreError]) for a create, a read or a delete, the use
    case hands that [StoreError] to its caller; a failed read is never
    reported as [NotFoundError]. *)
Theorem sessUC_surfaces_StoreError {W : Type} (env : Env W) (w : W) (ctx : Context)
        (session : Session) (expire : Z) (sessionID : string) :
  ((env (SessRepoCreateSession ctx session expire) w).1 = Err (Tagged StoreError) ->
   value (run env (sessUC.CreateSession ctx session expire) w) = Err (Tagged StoreError)) /\
  ((env (SessRepoGetSessionByID ctx sessionID) w).1 = Err (Tagged StoreError) ->
   value (run env (sessUC.GetSessionByID ctx sessionID) w) = Err (Tagged StoreError) /\
   value (run env (sessUC.GetSessionByID ctx sessionID) w) <> Err (Tagged NotFoundError)) /\
  ((env (SessRepoDeleteByID ctx sessionID) w).1 = Some (Tagged StoreError) ->
   value (run env (sessUC.DeleteByID ctx sessionID) w) = Some (Tagged StoreError)).
Proof.
  unfold sessUC.CreateSession, sessUC.GetSessionByID, sessUC.DeleteByID.
  run_calls. simpl. split; [| split].
  - intros Hcreate. exact Hcreate.
  - intros Hget. split; [exact Hget | rewrite Hget; discriminate].
  - intros Hdelete. exact Hdelete.
Qed.

Lemma CreateSession_GetSessionByID_DeleteByID_witness :
  let session := {| SessionID := ""; sessUserID := aliceID |} in
  let created := run (memEnv seqID) (sessUC.CreateSession ctxAnon session 60) worldEmpty in
  value created = Ok "id-0"%string /\
  (exists sess,
      value (run (memEnv seqID) (sessUC.GetSessionByID ctxAnon "id-0") (final created)) = Ok sess /\
      sessUserID sess = aliceID) /\
  let deleted := run (memEnv seqID) (sessUC.DeleteByID ctxAnon "id-0") (final created) in
  value deleted = None /\
  value (run (memEnv seqID) (sessUC.GetSessionByID ctxAnon "id-0") (final deleted))
    = Err (Tagged NotFoundError).
Proof.
  split.
  - vm_compute. reflexivity.
  - apply (CreateSession_GetSessionByID_DeleteByID seqID worldEmpty ctxAnon aliceID "" "id-0").
    vm_compute. reflexivity.
Defined.

Lemma sessUC_surfaces_StoreError_witness :
  let session := {| SessionID := ""; sessUserID := aliceID |} in
  value (run (memEnv seqID) (sessUC.CreateSession ctxAnon session 60) worldDown)
    = Err (Tagged StoreError) /\
  value (run (memEnv seqID) (sessUC.GetSessionByID ctxAnon "id-0") worldDown)
    = Err (Tagged StoreError) /\
  value (run (memEnv seqID) (sessUC.GetSessionByID ctxAnon "id-0") worldDown)
    <> Err (Tagged NotFoundError) /\
  value (run (memEnv seqID) (sessUC.DeleteByID ctxAnon "id-0") worldDown)
    = Some (Tagged StoreError).
Proof.
  intros session.
  destruct (sessUC_surfaces_StoreError (memEnv seqID) worldDown ctxAnon session 60 "id-0")
    as (Hcreate & Hget & Hdelete).
  split; [apply Hcreate; reflexivity |].
  destruct Hget as [Hg1 Hg2]; [reflexivity |].
  split; [exact Hg1 |]. split; [exact Hg2 |].
  apply Hdelete; reflexivity.
Defined.

(** ** Comments use case *)

Ltac prog_unfold := unfold mbind, Prog_bind, mret, Prog_ret, call; cbn [bind].

Ltac never_tac :=
  repeat (cbn [never bind];
          match goal with
          | |- _ /\ _ => split
          | |- forall _, _ => intro
          | |- ~ _ => intros []
          | |- True => exact I
          | |- never _ (match ?x with _ => _ end) => destruct x
          | |- never _ (bind (match ?x with _ => _ end) _) => cbn [Resp] in x; destruct x
          end).

(** X14: when the guard refuses, the comment is neither updated nor deleted:
    the use case stops right after the check and hands back the wrapped error. *)
Lemma commentsUC_refused {W : Type} (env : Env W) (w : W) (ctx : Context)
      (comment : Comment) (comm : CommentBase) (err : error) :
  let get := CommRepoGetByID ctx (CommentID comment) in
  let chk := ValidateIsOwner ctx (UUID_String (cbAuthorID comm)) in
  (env get w).1 = Ok comm ->
  (env chk (env get w).2).1 = Some err ->
  run env (commentsUC.Update ctx comment) w
    = mkOutcome (Err (Wrap err "commentsUC Update ValidateIsOwner"))
                (env chk (env get w).2).2 [get; chk] /\
  run env (commentsUC.Delete ctx (CommentID comment)) w
    = mkOutcome (Some (Wrap err "commentsUC Delete ValidateIsOwner"))
                (env chk (env get w).2).2 [get; chk].
Proof.
  intros get chk Hget Hchk.
  unfold commentsUC.Update, commentsUC.Delete. prog_unfold.
  subst get chk. simpl.
  destruct (env (CommRepoGetByID ctx (CommentID comment)) w) as [r w1].
  simpl in *. subst r. simpl.
  destruct (env (ValidateIsOwner ctx (UUID_String (cbAuthorID comm))) w1) as [v w2].
  simpl in *. subst v. split; reflexivity.
Qed.

(** C10: the comments [Update] and [Delete] use cases check ownership
    against the author of the comment the repository returned, and that is
    the only ownership check they make; when the repository has no such
    comment its error is returned and the lookup is the only call made, so
    neither the check nor the mutation takes place. *)
Theorem commentsUC_checks_fetched_author {W : Type} (env : Env W) (w : W) (ctx : Context)
        (comment : Comment) (commentID : UUID) :
  let oU := run env (commentsUC.Update ctx comment) w in
  let oD := run env (commentsUC.Delete ctx commentID) w in
  let getU := CommRepoGetByID ctx (CommentID comment) in
  let getD := CommRepoGetByID ctx commentID in
  match (env getU w).1 with
  | Err e => value oU = Err e /\ trace oU = [getU]
  | Ok comm =>
      exists rest,
        trace oU = getU :: ValidateIsOwner ctx (UUID_String (cbAuthorID comm)) :: rest /\
        Forall (fun c => ~ isValidateIsOwner c) rest
  end /\
  match (env getD w).1 with
  | Err e => value oD = Some e /\ trace oD = [getD]
  | Ok comm =>
      exists rest,
        trace oD = getD :: ValidateIsOwner ctx (UUID_String (cbAuthorID comm)) :: rest /\
        Forall (fun c => ~ isValidateIsOwner c) rest
  end.
Proof.
  intros oU oD getU getD. subst oU oD getU getD.
  unfold commentsUC.Update, commentsUC.Delete. prog_unfold. simpl. split.
  - destruct (env (CommRepoGetByID ctx (CommentID comment)) w) as [[comm | e] w1]; simpl.
    + destruct (env (ValidateIsOwner ctx (UUID_String (cbAuthorID comm))) w1)
        as [[err |] w2]; simpl.
      * exists []. split; [reflexivity | constructor].
      * destruct (env (CommRepoUpdate ctx comment) w2) as [[updated | err] w3]; simpl;
          (exists [CommRepoUpdate ctx comment]; split;
           [reflexivity | constructor; [intros [] | constructor]]).
    + split; reflexivity.
  - destruct (env (CommRepoGetByID ctx commentID) w) as [[comm | e] w1]; simpl.
    + destruct (env (ValidateIsOwner ctx (UUID_String (cbAuthorID comm))) w1)
        as [[err |] w2]; simpl.
      * exists []. split; [reflexivity | constructor].
      * destruct (env (CommRepoDelete ctx commentID) w2) as [[err |] w3]; simpl;
          (exists [CommRepoDelete ctx commentID]; split;
           [reflexivity | constructor; [intros [] | constructor]]).
    + split; reflexivity.
Qed.

(** ** Auth use case and handlers *)

Lemma authUC_Register_never_deletes (cfg : Config) (ctx : Context) (user : User) :
  never isAuthRepoDelete (authUC.Register cfg ctx user).
Proof. unfold authUC.Register. prog_unfold. never_tac. Qed.

(** A successful [Register] of the use case went through the repository. *)
Lemma authUC_Register_Ok_registered {W : Type} (cfg : Config) (env : Env W) (w : W)
      (ctx : Context) (user : User) (created : UserWithToken) :
  value (run env (authUC.Register cfg ctx user) w) = Ok created ->
  exists u, In (AuthRepoRegister ctx u) (trace (run env (authUC.Register cfg ctx user) w)).
Proof.
  unfold authUC.Register. prog_unfold. simpl.
  destruct (env (ValidateStruct ctx user) w) as [[err |] w1]; simpl; [discriminate |].
  destruct (env (PrepareCreate user) w1) as [[prepared | err] w2]; simpl; [| discriminate].
  destruct (env (AuthRepoRegister ctx prepared) w2) as [[stored | err] w3]; simpl;
    [| discriminate].
  intros _. exists prepared. right. right. left. reflexivity.
Qed.

(** C9: when the use case has registered the user and the session store
    then fails, the handler answers with that error and sets no cookie; the
    failed [CreateSession] is its last call, and no call of the run deletes
    a user, so the record created by the repository stays. *)
Theorem Register_session_failure_keeps_user {W : Type} (cfg : Config) (env : Env W)
        (c : Request) (w w1 w2 w3 : W) (user : User) (created : UserWithToken)
        (t : list Call) (e : error) :
  let ctx := GetCtxWithReqID c in
  let create :=
    SessRepoCreateSession ctx {| SessionID := ""; sessUserID := UserID (uwtUser created) |}
                          (sessExpire (cfgSession cfg)) in
  env (ReadRequestUser c emptyUser) w = (Ok user, w1) ->
  run env (authUC.Register cfg ctx user) w1 = mkOutcome (Ok created) w2 t ->
  env create w2 = (Err e, w3) ->
  let o := run env (handlers.Register cfg c) w in
  value o = mkReply [] (ErrResponse e) /\
  final o = w3 /\
  trace o = ReadRequestUser c emptyUser :: t ++ [create] /\
  (exists u, In (AuthRepoRegister ctx u) t) /\
  Forall (fun call => ~ isAuthRepoDelete call) (trace o).
Proof.
  intros ctx create Hread Hreg Hsess o.
  assert (Ho : o = mkOutcome (mkReply [] (ErrResponse e)) w3
                             (ReadRequestUser c emptyUser :: t ++ [create])).
  { subst o. unfold handlers.Register. prog_unfold. fold ctx.
    rewrite run_vis, Hread. cbn [fst snd].
    rewrite run_bind, Hreg. cbn [value final trace].
    unfold sessUC.CreateSession. prog_unfold. fold create.
    rewrite run_vis, Hsess. reflexivity. }
  rewrite Ho. cbn [value final trace]. repeat split.
  - pose proof (authUC_Register_Ok_registered cfg env w1 ctx user created) as Hin.
    rewrite Hreg in Hin. apply Hin. reflexivity.
  - constructor; [intros [] |]. apply Forall_app. split.
    + pose proof (never_trace isAuthRepoDelete _
                    (authUC_Register_never_deletes cfg ctx user) env w1) as Hn.
      rewrite Hreg in Hn. exact Hn.
    + constructor; [intros [] | constructor].
Qed.

Lemma Register_session_failure_keeps_user_witness :
  let o := run (memEnv seqID) (handlers.Register cfgSid rqRegister) worldDown in
  value o = mkReply [] (ErrResponse (Tagged StoreError)) /\
  Forall (fun call => ~ isAuthRepoDelete call) (trace o) /\
  users (final o) =
    [ {| UserID := MkUUID "id-0"; FirstName := ""; Email := "c@x.com";
         Password := "bcrypt:secret3" |} ].
Proof.
  intros o.
  edestruct (Register_session_failure_keeps_user cfgSid (memEnv seqID) rqRegister worldDown)
    as (Hvalue & Hfinal & Htrace & Hin & Hnodelete).
  - reflexivity.
  - reflexivity.
  - reflexivity.
  - split; [exact Hvalue |]. split; [exact Hnodelete |].
    subst o. rewrite Hfinal. reflexivity.
Defined.

(** *** Ownership on the auth handlers *)

(** The route id parser accepts only strings of the four UUID lengths. *)
Lemma uuid_Parse_length (s : string) (u : UUID) :
  standin.uuid_Parse s = Ok u ->
  In (String.length s) [32; 36; 38; 45]%nat.
Proof.
  unfold standin.uuid_Parse. simpl.
  destruct (Nat.eqb_spec (String.length s) 36) as [-> | _]; [auto |].
  destruct (Nat.eqb_spec (String.length s) 45) as [-> | _]; [auto |].
  destruct (Nat.eqb_spec (String.length s) 38) as [-> | _]; [auto |].
  destruct (Nat.eqb_spec (String.length s) 32) as [-> | _]; [auto |].
  discriminate.
Qed.

(** The user [Update] and [Delete] handlers reach the repository without
    consulting the ownership guard, whatever the answers of the calls. *)
Lemma auth_handlers_never_ValidateIsOwner (c : Request) :
  never isValidateIsOwner (handlers.Update c) /\
  never isValidateIsOwner (handlers.Delete c).
Proof.
  unfold handlers.Update, handlers.Delete, authUC.Update, authUC.Delete.
  prog_unfold. split; never_tac.
Qed.

(** The comments use case on the same situation: alice may not touch bob's
    comment, and the table is left as it was. *)
Lemma commentsUC_refuses_foreign_comment :
  let edit := {| CommentID := MkUUID "c-1"; AuthorID := aliceID; NewsID := MkUUID "n-1";
                 Message := "defaced" |} in
  let o := run (memEnv seqID) (commentsUC.Update ctxAlice edit) worldAB in
  value o = Err (Wrap (Tagged ForbiddenError) "commentsUC Update ValidateIsOwner") /\
  commentsTable (final o) = [bobsComment] /\
  trace o = [CommRepoGetByID ctxAlice (MkUUID "c-1"); ValidateIsOwner ctxAlice (UUID_String bobID)].
Proof. vm_compute. repeat split. Qed.

(** C1: alice, authenticated, sends PUT and DELETE on
    /auth/b0b00000-0000-4000-8000-000000000002, bob's id, which parses as a
    UUID.  The ownership guard would refuse her for bob's record, yet both
    handlers answer 200, bob's record is rewritten (respectively removed),
    and no call to the guard appears among the calls made. *)
Theorem auth_handlers_skip_owner_guard :
  let oU := run (memEnv seqID) (handlers.Update rqUpdateBob) worldAB in
  let oD := run (memEnv seqID) (handlers.Delete rqDeleteBob) worldAB in
  Param "user_id" (reqParams rqUpdateBob) = "b0b00000-0000-4000-8000-000000000002"%string /\
  standin.uuid_Parse (Param "user_id" (reqParams rqUpdateBob)) = Ok bobID /\
  standin.uuid_Parse (Param "user_id" (reqParams rqDeleteBob)) = Ok bobID /\
  utils.ValidateIsOwner (GetCtxWithReqID rqUpdateBob) (UUID_String bobID)
    = Some (Tagged ForbiddenError) /\
  succeeded (value oU) = true /\
  findUser bobID (users (final oU))
    = Some {| UserID := bobID; FirstName := "mallory"; Email := "b@x.com";
              Password := "bcrypt:secret2" |} /\
  Forall (fun call => ~ isValidateIsOwner call) (trace oU) /\
  Exists isMutation (trace oU) /\
  succeeded (value oD) = true /\
  findUser bobID (users (final oD)) = None /\
  Forall (fun call => ~ isValidateIsOwner call) (trace oD) /\
  Exists isMutation (trace oD).
Proof.
  intros oU oD.
  destruct (auth_handlers_never_ValidateIsOwner rqUpdateBob) as [HnU _].
  destruct (auth_handlers_never_ValidateIsOwner rqDeleteBob) as [_ HnD].
  split; [reflexivity |].
  split; [vm_compute; reflexivity |].
  split; [vm_compute; reflexivity |].
  split; [reflexivity |].
  split; [vm_compute; reflexivity |].
  split; [vm_compute; reflexivity |].
  split; [apply never_trace, HnU |].
  split; [vm_compute; repeat first [apply Exists_cons_hd; exact I | apply Exists_cons_tl] |].
  split; [vm_compute; reflexivity |].
  split; [vm_compute; reflexivity |].
  split; [apply never_trace, HnD |].
  vm_compute; repeat first [apply Exists_cons_hd; exact I | apply Exists_cons_tl].
Qed.

(** *** Sanitizing on the way out *)

(** The four single-identity use cases hand back a sanitized identity. *)
Lemma authUC_single_identity_sanitized {W : Type} (cfg : Config) (env : Env W) (w : W)
      (ctx : Context) (user : User) (userID : UUID) (loginDTO : LoginDTO) :
  (forall r, value (run env (authUC.Register cfg ctx user) w) = Ok r ->
             Password (uwtUser r) = ""%string) /\
  (forall r, value (run env (authUC.Login cfg ctx loginDTO) w) = Ok r ->
             Password (uwtUser r) = ""%string) /\
  (forall u, value (run env (authUC.Update ctx user) w) = Ok u -> Password u = ""%string) /\
  (forall u, value (run env (authUC.GetByID ctx userID) w) = Ok u -> Password u = ""%string).
Proof.
  unfold authUC.Register, authUC.Login, authUC.Update, authUC.GetByID. prog_unfold.
  repeat split; intros r; simpl.
  - destruct (env (ValidateStruct ctx user) w) as [[err |] w1]; simpl; [discriminate |].
    destruct (env (PrepareCreate user) w1) as [[prepared | err] w2]; simpl; [| discriminate].
    destruct (env (AuthRepoRegister ctx prepared) w2) as [[stored | err] w3]; simpl;
      [| discriminate].
    destruct (env (GenerateJWTToken (SanitizePassword stored) cfg) w3) as [[tok | err] w4];
      simpl; [| discriminate].
    intros [= <-]. reflexivity.
  - destruct (env (AuthRepoFindByEmail ctx loginDTO) w) as [[found | err] w1]; simpl;
      [| discriminate].
    destruct (env (ComparePasswords found (loginPassword loginDTO)) w1) as [[err |] w2];
      simpl; [discriminate |].
    destruct (env (GenerateJWTToken (SanitizePassword found) cfg) w2) as [[tok | err] w3];
      simpl; [| discriminate].
    intros [= <-]. reflexivity.
  - destruct (env (ValidateStruct ctx user) w) as [[err |] w1]; simpl; [discriminate |].
    destruct (env (PrepareUpdate user) w1) as [[prepared | err] w2]; simpl; [| discriminate].
    destruct (env (AuthRepoUpdate ctx prepared) w2) as [[stored | err] w3]; simpl;
      [| discriminate].
    intros [= <-]. reflexivity.
  - destruct (env (AuthRepoGetByID ctx userID) w) as [[found | err] w1]; simpl;
      [| discriminate].
    intros [= <-]. reflexivity.
Qed.

(** The two listing use cases hand back the repository's answer as it is. *)
Lemma authUC_listings_as_stored {W : Type} (env : Env W) (w : W) (ctx : Context)
      (name : string) (pq : PaginationQuery) :
  value (run env (authUC.FindByName ctx name pq) w) = (env (AuthRepoFindByName ctx name pq) w).1 /\
  value (run env (authUC.GetUsers ctx pq) w) = (env (AuthRepoGetUsers ctx pq) w).1.
Proof.
  unfold authUC.FindByName, authUC.GetUsers. prog_unfold. simpl. split.
  - destruct (env (AuthRepoFindByName ctx name pq) w); reflexivity.
  - destruct (env (AuthRepoGetUsers ctx pq) w) as [[l | err] w1]; reflexivity.
Qed.

(** C2: with alice and bob in the directory, [FindByName] and [GetUsers]
    return them with their password hashes still in place, while [GetByID]
    on the same directory returns alice with the hash cleared. *)
Theorem listings_return_password_hashes :
  value (run (memEnv seqID) (authUC.FindByName ctxAnon "alice" pq0) worldAB)
    = Ok {| TotalCount := 1; Users := [alice] |} /\
  value (run (memEnv seqID) (authUC.GetUsers ctxAnon pq0) worldAB)
    = Ok {| TotalCount := 2; Users := [alice; bob] |} /\
  Password alice = "bcrypt:secret1"%string /\
  Password bob = "bcrypt:secret2"%string /\
  value (run (memEnv seqID) (authUC.GetByID ctxAnon aliceID) worldAB)
    = Ok (SanitizePassword alice).
Proof. vm_compute. repeat split. Qed.

(** *** Logout *)

(** When the request carries a cookie named "session-id" and the backend is
    reachable, [Logout] answers 200, expires the cookie of the configured
    name, and the session that cookie names is gone afterwards. *)
Lemma Logout_deletes_session_id_cookie (newID : nat -> string) (cfg : Config) (w : World)
      (c : Request) (ck : Cookie) :
  CookieByName "session-id" (reqCookies c) = Ok ck ->
  kvUp w = true ->
  let o := run (memEnv newID) (handlers.Logout cfg c) w in
  value o = mkReply [DeleteSessionCookie (sessName (cfgSession cfg))] (NoContent StatusOK) /\
  value (run (memEnv newID) (sessUC.GetSessionByID (GetCtxWithReqID c) (Value ck)) (final o))
    = Err (Tagged NotFoundError).
Proof.
  intros Hck Hup o. subst o. unfold handlers.Logout. rewrite Hck.
  unfold sessUC.DeleteByID, sessUC.GetSessionByID. prog_unfold. simpl.
  unfold sessRepo.DeleteByID. rewrite Hup. simpl.
  unfold sessRepo.GetSessionByID. simpl. rewrite lookup_delete_eq. auto.
Qed.

(** The cookie set at login is found again under the configured name. *)
Lemma CookieByName_CreateSessionCookie (cfg : Config) (session : string) (rest : list Cookie) :
  CookieByName (sessName (cfgSession cfg)) (CreateSessionCookie cfg session :: rest)
    = Ok (CreateSessionCookie cfg session).
Proof. simpl. rewrite String.eqb_refl. reflexivity. Qed.

(** C3: the session name is configured as "sid".  Alice logs in and gets
    the cookie sid=id-0.  A logout carrying that cookie alone is answered
    401 and deletes nothing; a logout carrying it next to some cookie named
    "session-id" is answered 200, and in both cases the session id-0 can
    still be read afterwards. *)
Theorem Logout_reads_fixed_cookie_name :
  let login := run (memEnv seqID) (handlers.Login cfgSid rqLogin) worldAB in
  let issued := CreateSessionCookie cfgSid "id-0" in
  let alone := run (memEnv seqID) (handlers.Logout cfgSid (rqLogout [issued])) (final login) in
  let both :=
    run (memEnv seqID)
        (handlers.Logout cfgSid (rqLogout [issued; sentCookie "session-id" "stale"]))
        (final login) in
  succeeded (value login) = true /\
  setCookies (value login) = [issued] /\
  response (value alone)
    = JSON StatusUnauthorized (BodyError (NewUnauthorizedError ErrNoCookie)) /\
  value (run (memEnv seqID) (sessUC.GetSessionByID ctxAnon "id-0") (final alone))
    = Ok {| SessionID := "id-0"; sessUserID := aliceID |} /\
  succeeded (value both) = true /\
  value (run (memEnv seqID) (sessUC.GetSessionByID ctxAnon "id-0") (final both))
    = Ok {| SessionID := "id-0"; sessUserID := aliceID |}.
Proof. vm_compute. repeat split. Qed.

(** ** Further properties of the use cases and handlers *)

(** One call answered: split on its answer. *)
Ltac answer env :=
  match goal with
  | |- context [env ?c ?w] =>
      let x := fresh "x" in
      let w' := fresh "w" in
      destruct (env c w) as [x w']; cbn [Resp] in x; destruct x; simpl
  | H : context [env ?c ?w] |- _ =>
      let x := fresh "x" in
      let w' := fresh "w" in
      destruct (env c w) as [x w']; cbn [Resp] in x; destruct x; simpl in *
  end.

(** *** Auth use case *)

(** X1: whatever [Register] hands to the repository is the value
    [PrepareCreate] returned for a user that passed [ValidateStruct]; a user
    that fails either step is never stored. *)
Theorem authUC_Register_stores_prepared_user {W : Type} (cfg : Config) (env : Env W) (w : W)
        (ctx ctx' : Context) (user stored : User) :
  In (AuthRepoRegister ctx' stored) (trace (run env (authUC.Register cfg ctx user) w)) ->
  ctx' = ctx /\
  (env (ValidateStruct ctx user) w).1 = None /\
  (env (PrepareCreate user) (env (ValidateStruct ctx user) w).2).1 = Ok stored.
Proof.
  unfold authUC.Register. prog_unfold. simpl.
  destruct (env (ValidateStruct ctx user) w) as [[err |] w1]; simpl.
  - intros [H | []]. discriminate H.
  - destruct (env (PrepareCreate user) w1) as [[prepared | err] w2]; simpl.
    + destruct (env (AuthRepoRegister ctx prepared) w2) as [[created | err] w3]; simpl.
      * destruct (env (GenerateJWTToken (SanitizePassword created) cfg) w3)
          as [[tok | err] w4]; simpl;
          intros [H | [H | [H | [H | []]]]]; try discriminate H;
          injection H as <- <-; auto.
      * intros [H | [H | [H | []]]]; try discriminate H. injection H as <- <-; auto.
    + intros [H | [H | []]]; discriminate H.
Qed.

(** X2: the token generator is only ever handed a sanitized identity, by
    [Register] as by [Login]. *)
Theorem authUC_token_for_sanitized_user {W : Type} (cfg : Config) (env : Env W) (w : W)
        (ctx : Context) (user : User) (loginDTO : LoginDTO) :
  Forall tokenForSanitized (trace (run env (authUC.Register cfg ctx user) w)) /\
  Forall tokenForSanitized (trace (run env (authUC.Login cfg ctx loginDTO) w)).
Proof.
  unfold authUC.Register, authUC.Login. prog_unfold. simpl. split.
  - repeat answer env; repeat constructor.
  - repeat answer env; repeat constructor.
Qed.

(** X3: when the repository has created the user and signing the token
    then fails, [Register] returns that error; signing is its last call and
    nothing removes the user again. *)
Theorem authUC_Register_token_failure {W : Type} (cfg : Config) (env : Env W)
        (w w1 w2 w3 w4 : W) (ctx : Context) (user prepared created : User) (e : error) :
  env (ValidateStruct ctx user) w = (None, w1) ->
  env (PrepareCreate user) w1 = (Ok prepared, w2) ->
  env (AuthRepoRegister ctx prepared) w2 = (Ok created, w3) ->
  env (GenerateJWTToken (SanitizePassword created) cfg) w3 = (Err e, w4) ->
  run env (authUC.Register cfg ctx user) w
    = mkOutcome (Err e) w4
        [ValidateStruct ctx user; PrepareCreate user; AuthRepoRegister ctx prepared;
         GenerateJWTToken (SanitizePassword created) cfg].
Proof.
  intros Hv Hp Hr Ht. unfold authUC.Register. prog_unfold. simpl.
  rewrite Hv. simpl. rewrite Hp. simpl. rewrite Hr. simpl. rewrite Ht. reflexivity.
Qed.

(** X4: [Login] asks for a token only for the user the repository found by
    e-mail, after [ComparePasswords] accepted the supplied password against
    that user as stored, and the token is for the sanitized copy. *)
Theorem authUC_Login_token_after_password_check {W : Type} (cfg cfg' : Config) (env : Env W)
        (w : W) (ctx : Context) (loginDTO : LoginDTO) (u : User) :
  In (GenerateJWTToken u cfg') (trace (run env (authUC.Login cfg ctx loginDTO) w)) ->
  exists found,
    (env (AuthRepoFindByEmail ctx loginDTO) w).1 = Ok found /\
    (env (ComparePasswords found (loginPassword loginDTO))
         (env (AuthRepoFindByEmail ctx loginDTO) w).2).1 = None /\
    u = SanitizePassword found /\ cfg' = cfg.
Proof.
  unfold authUC.Login. prog_unfold. simpl.
  destruct (env (AuthRepoFindByEmail ctx loginDTO) w) as [[found | err] w1]; simpl.
  - destruct (env (ComparePasswords found (loginPassword loginDTO)) w1) as [[err |] w2] eqn:Hcmp;
      simpl.
    + intros [H | [H | []]]; discriminate H.
    + destruct (env (GenerateJWTToken (SanitizePassword found) cfg) w2) as [[tok | err] w3];
        simpl; intros [H | [H | [H | []]]]; try discriminate H;
        injection H as <- <-; exists found; rewrite Hcmp; repeat split.
  - intros [H | []]. discriminate H.
Qed.

(** X5: whatever [Update] hands to the repository is the value
    [PrepareUpdate] returned for a user that passed [ValidateStruct]. *)
Theorem authUC_Update_stores_prepared_user {W : Type} (env : Env W) (w : W)
        (ctx ctx' : Context) (user stored : User) :
  In (AuthRepoUpdate ctx' stored) (trace (run env (authUC.Update ctx user) w)) ->
  ctx' = ctx /\
  (env (ValidateStruct ctx user) w).1 = None /\
  (env (PrepareUpdate user) (env (ValidateStruct ctx user) w).2).1 = Ok stored.
Proof.
  unfold authUC.Update. prog_unfold. simpl.
  destruct (env (ValidateStruct ctx user) w) as [[err |] w1]; simpl.
  - intros [H | []]. discriminate H.
  - destruct (env (PrepareUpdate user) w1) as [[prepared | err] w2]; simpl.
    + destruct (env (AuthRepoUpdate ctx prepared) w2) as [[updated | err] w3]; simpl;
        intros [H | [H | [H | []]]]; try discriminate H; injection H as <- <-; auto.
    + intros [H | [H | []]]; discriminate H.
Qed.

Lemma authUC_Register_stores_prepared_user_witness :
  let hashed := {| UserID := MkUUID ""; FirstName := "carol"; Email := "c@x.com";
                   Password := "bcrypt:secret3" |} in
  ctxAnon = ctxAnon /\
  (memEnv seqID (ValidateStruct ctxAnon carol) worldEmpty).1 = None /\
  (memEnv seqID (PrepareCreate carol)
          (memEnv seqID (ValidateStruct ctxAnon carol) worldEmpty).2).1 = Ok hashed.
Proof.
  intros hashed.
  apply (authUC_Register_stores_prepared_user cfgSid (memEnv seqID) worldEmpty
           ctxAnon ctxAnon carol hashed).
  vm_compute. right; right; left; reflexivity.
Defined.

Lemma authUC_Register_token_failure_witness :
  let hashed := {| UserID := MkUUID ""; FirstName := "carol"; Email := "c@x.com";
                   Password := "bcrypt:secret3" |} in
  let o := run (memEnv seqID) (authUC.Register cfgNoSecret ctxAnon carol) worldEmpty in
  value o = Err (Tagged SigningError) /\
  users (final o) = [withUserID hashed (MkUUID "id-0")].
Proof.
  intros hashed o. subst o.
  set (w3 := (memEnv seqID (AuthRepoRegister ctxAnon hashed) worldEmpty).2).
  rewrite (authUC_Register_token_failure cfgNoSecret (memEnv seqID)
             worldEmpty worldEmpty worldEmpty w3 w3 ctxAnon carol hashed
             (withUserID hashed (MkUUID "id-0")) (Tagged SigningError)
             eq_refl eq_refl eq_refl eq_refl).
  split; reflexivity.
Defined.

Lemma authUC_Login_token_after_password_check_witness :
  exists found,
    (memEnv seqID (AuthRepoFindByEmail ctxAnon (mkLoginDTO "a@x.com" "secret1")) worldAB).1
      = Ok found /\
    (memEnv seqID (ComparePasswords found "secret1")
       (memEnv seqID (AuthRepoFindByEmail ctxAnon (mkLoginDTO "a@x.com" "secret1")) worldAB).2).1
      = None /\
    SanitizePassword alice = SanitizePassword found /\ cfgSid = cfgSid.
Proof.
  apply (authUC_Login_token_after_password_check cfgSid cfgSid (memEnv seqID) worldAB
           ctxAnon (mkLoginDTO "a@x.com" "secret1") (SanitizePassword alice)).
  vm_compute. right; right; left; reflexivity.
Defined.

Lemma authUC_Update_stores_prepared_user_witness :
  let edit := {| UserID := bobID; FirstName := "robert"; Email := ""; Password := "" |} in
  ctxAnon = ctxAnon /\
  (memEnv seqID (ValidateStruct ctxAnon edit) worldAB).1 = None /\
  (memEnv seqID (PrepareUpdate edit)
          (memEnv seqID (ValidateStruct ctxAnon edit) worldAB).2).1 = Ok edit.
Proof.
  intros edit.
  apply (authUC_Update_stores_prepared_user (memEnv seqID) worldAB ctxAnon ctxAnon edit edit).
  vm_compute. right; right; left; reflexivity.
Defined.

(** *** Auth handlers *)

(** X6: [Register] and [Login] either answer with an error and set no
    cookie, or answer 201 (respectively 200) with exactly one cookie, the
    session cookie, and a user whose password hash is cleared. *)
Theorem handlers_session_cookie_with_success_only {W : Type} (cfg : Config) (env : Env W)
        (w : W) (c : Request) :
  sessionReply cfg StatusCreated (value (run env (handlers.Register cfg c) w)) /\
  sessionReply cfg StatusOK (value (run env (handlers.Login cfg c) w)).
Proof.
  unfold handlers.Register, handlers.Login, sessUC.CreateSession. prog_unfold. split.
  - rewrite run_vis. cbn zeta.
    destruct (env (ReadRequestUser c emptyUser) w) as [[user | e] w1]; cbn [fst snd].
    + rewrite run_bind. cbn zeta.
      pose proof (authUC_single_identity_sanitized cfg env w1 (GetCtxWithReqID c) user
                    (MkUUID "") (mkLoginDTO "" "")) as (Hsan & _).
      destruct (run env (authUC.Register cfg (GetCtxWithReqID c) user) w1)
        as [[created | e] w2 t]; cbn [value final trace] in *.
      * rewrite run_vis. cbn zeta.
        destruct (env (SessRepoCreateSession (GetCtxWithReqID c)
                         {| SessionID := ""; sessUserID := UserID (uwtUser created) |}
                         (sessExpire (cfgSession cfg))) w2) as [[sess | e] w3];
          cbn [fst snd run value].
        -- right. exists created, sess. split; [reflexivity | apply Hsan; reflexivity].
        -- left. exists e. reflexivity.
      * left. exists e. reflexivity.
    + left. exists e. reflexivity.
  - rewrite run_vis. cbn zeta.
    destruct (env (ReadRequestLogin c) w) as [[login | e] w1]; cbn [fst snd].
    + rewrite run_bind. cbn zeta.
      pose proof (authUC_single_identity_sanitized cfg env w1 (GetCtxWithReqID c) emptyUser
                    (MkUUID "")
                    {| loginEmail := loginEmail login; loginPassword := loginPassword login |})
        as (_ & Hsan & _).
      destruct (run env (authUC.Login cfg (GetCtxWithReqID c)
                           {| loginEmail := loginEmail login;
                              loginPassword := loginPassword login |}) w1)
        as [[found | e] w2 t]; cbn [value final trace] in *.
      * rewrite run_vis. cbn zeta.
        destruct (env (SessRepoCreateSession (GetCtxWithReqID c)
                         {| SessionID := ""; sessUserID := UserID (uwtUser found) |}
                         (sessExpire (cfgSession cfg))) w2) as [[sess | e] w3];
          cbn [fst snd run value].
        -- right. exists found, sess. split; [reflexivity | apply Hsan; reflexivity].
        -- left. exists e. reflexivity.
      * left. exists e. reflexivity.
    + left. exists e. reflexivity.
Qed.

(** X7: when the body was read, the use case has logged the user in and
    the session repository has returned a session id, [Login] answers 200
    with the use case's user and token, sets the session cookie for that id,
    and the session was opened for the id of that user with the configured
    TTL; creating the session is the handler's last call. *)
Theorem Login_opens_session_for_found_user {W : Type} (cfg : Config) (env : Env W)
        (c : Request) (w w1 w2 w3 : W) (login : LoginDTO) (found : UserWithToken)
        (t : list Call) (sess : string) :
  let ctx := GetCtxWithReqID c in
  let create :=
    SessRepoCreateSession ctx {| SessionID := ""; sessUserID := UserID (uwtUser found) |}
                          (sessExpire (cfgSession cfg)) in
  env (ReadRequestLogin c) w = (Ok login, w1) ->
  run env (authUC.Login cfg ctx
             {| loginEmail := loginEmail login; loginPassword := loginPassword login |}) w1
    = mkOutcome (Ok found) w2 t ->
  env create w2 = (Ok sess, w3) ->
  run env (handlers.Login cfg c) w
    = mkOutcome (mkReply [CreateSessionCookie cfg sess]
                   (JSON StatusOK (BodyUserWithToken found)))
                w3 (ReadRequestLogin c :: t ++ [create]).
Proof.
  intros ctx create Hread Hlogin Hsess.
  unfold handlers.Login. prog_unfold. fold ctx.
  rewrite run_vis, Hread. cbn [fst snd].
  rewrite run_bind, Hlogin. cbn [value final trace].
  unfold sessUC.CreateSession. prog_unfold. fold create.
  rewrite run_vis, Hsess. reflexivity.
Qed.

Lemma Login_opens_session_for_found_user_witness :
  let o := run (memEnv seqID) (handlers.Login cfgSid rqLogin) worldAB in
  value o = mkReply [CreateSessionCookie cfgSid "id-0"]
              (JSON StatusOK
                 (BodyUserWithToken {| uwtUser := SanitizePassword alice;
                                       Token := "jwt." ++ UUID_String aliceID |})) /\
  kv (final o) !! "id-0"%string = Some ({| SessionID := "id-0"; sessUserID := aliceID |}, 1060).
Proof.
  intros o. subst o.
  set (create := SessRepoCreateSession (GetCtxWithReqID rqLogin)
                   {| SessionID := ""; sessUserID := aliceID |} 60).
  rewrite (Login_opens_session_for_found_user cfgSid (memEnv seqID) rqLogin
             worldAB worldAB worldAB (memEnv seqID create worldAB).2
             (mkLoginDTO "a@x.com" "secret1")
             {| uwtUser := SanitizePassword alice; Token := "jwt." ++ UUID_String aliceID |}
             (trace (run (memEnv seqID)
                       (authUC.Login cfgSid (GetCtxWithReqID rqLogin)
                          (mkLoginDTO "a@x.com" "secret1")) worldAB))
             "id-0" eq_refl eq_refl eq_refl).
  split; [reflexivity | vm_compute; reflexivity].
Defined.

(** X8: [Logout] without a cookie named "session-id" answers 401, calls
    nothing and sets no cookie; it never takes the 500 branch.  With such a
    cookie it makes exactly one call, deleting the session its value names,
    and expires the session cookie only when that deletion succeeded. *)
Theorem Logout_behaviour {W : Type} (cfg : Config) (env : Env W) (w : W) (c : Request) :
  let o := run env (handlers.Logout cfg c) w in
  match CookieByName "session-id" (reqCookies c) with
  | Err _ =>
      o = mkOutcome
            (mkReply [] (JSON StatusUnauthorized (BodyError (NewUnauthorizedError ErrNoCookie))))
            w []
  | Ok cookie =>
      let delete := SessRepoDeleteByID (GetCtxWithReqID c) (Value cookie) in
      o = mkOutcome (logoutReply cfg (env delete w).1) (env delete w).2 [delete]
  end.
Proof.
  intros o. subst o. unfold handlers.Logout.
  assert (Honly : forall cookies e, CookieByName "session-id" cookies = Err e -> e = ErrNoCookie).
  { induction cookies as [| ck rest IH]; simpl; intros e He.
    - congruence.
    - destruct (String.eqb (Name ck) "session-id"); [discriminate | auto]. }
  destruct (CookieByName "session-id" (reqCookies c)) as [cookie | e] eqn:Hck.
  - unfold sessUC.DeleteByID. prog_unfold. rewrite run_vis. cbn zeta.
    destruct (env (SessRepoDeleteByID (GetCtxWithReqID c) (Value cookie)) w) as [[err |] w1];
      reflexivity.
  - apply Honly in Hck. subst e. reflexivity.
Qed.

(** X9: when the user id of the route does not parse, [Update], [Delete]
    and [GetUserByID] answer with the parse error; parsing is the only call
    they make, so the body is not read and no repository is reached. *)
Theorem handlers_reject_unparsable_user_id {W : Type} (env : Env W) (w : W) (c : Request)
        (e : error) :
  let parse := uuid_Parse (Param "user_id" (reqParams c)) in
  (env parse w).1 = Err e ->
  let rejected := mkOutcome (mkReply [] (ErrResponse e)) (env parse w).2 [parse] in
  run env (handlers.Update c) w = rejected /\
  run env (handlers.Delete c) w = rejected /\
  run env (handlers.GetUserByID c) w = rejected.
Proof.
  intros parse Hparse rejected. subst rejected.
  unfold handlers.Update, handlers.Delete, handlers.GetUserByID. prog_unfold.
  rewrite !run_vis. fold parse. cbn zeta. rewrite Hparse. repeat split.
Qed.

Lemma handlers_reject_unparsable_user_id_witness :
  let rejected :=
    mkOutcome (mkReply [] (ErrResponse (Tagged ValidationError))) worldAB [uuid_Parse ""] in
  run (memEnv seqID) (handlers.Update rqNoID) worldAB = rejected /\
  run (memEnv seqID) (handlers.Delete rqNoID) worldAB = rejected /\
  run (memEnv seqID) (handlers.GetUserByID rqNoID) worldAB = rejected.
Proof.
  apply (handlers_reject_unparsable_user_id (memEnv seqID) worldAB rqNoID
           (Tagged ValidationError)).
  reflexivity.
Defined.

(** X10: when the request body cannot be read, [Register] and [Login]
    answer with that error and set no cookie; reading is the only call they
    make, so no user is created and no session opened. *)
Theorem handlers_reject_unreadable_body {W : Type} (cfg : Config) (env : Env W) (w : W)
        (c : Request) (e : error) :
  ((env (ReadRequestUser c emptyUser) w).1 = Err e ->
   run env (handlers.Register cfg c) w
     = mkOutcome (mkReply [] (ErrResponse e)) (env (ReadRequestUser c emptyUser) w).2
                 [ReadRequestUser c emptyUser]) /\
  ((env (ReadRequestLogin c) w).1 = Err e ->
   run env (handlers.Login cfg c) w
     = mkOutcome (mkReply [] (ErrResponse e)) (env (ReadRequestLogin c) w).2
                 [ReadRequestLogin c]).
Proof.
  unfold handlers.Register, handlers.Login. prog_unfold.
  rewrite !run_vis. cbn zeta. split; intros Hread; rewrite Hread; reflexivity.
Qed.

Lemma handlers_reject_unreadable_body_witness :
  run (memEnv seqID) (handlers.Login cfgSid rqBadLogin) worldAB
    = mkOutcome (mkReply [] (ErrResponse (Tagged ValidationError))) worldAB
                [ReadRequestLogin rqBadLogin].
Proof.
  destruct (handlers_reject_unreadable_body cfgSid (memEnv seqID) worldAB rqBadLogin
              (Tagged ValidationError)) as [_ Hlogin].
  apply Hlogin. reflexivity.
Defined.

(** X11: a user that [Update] or [GetUserByID] writes into a response has
    its password hash cleared. *)
Theorem handlers_user_bodies_sanitized {W : Type} (env : Env W) (w : W) (c : Request)
        (status : Z) (u : User) :
  response (value (run env (handlers.Update c) w)) = JSON status (BodyUser u) \/
  response (value (run env (handlers.GetUserByID c) w)) = JSON status (BodyUser u) ->
  Password u = ""%string.
Proof.
  unfold handlers.Update, handlers.GetUserByID, authUC.Update, authUC.GetByID.
  prog_unfold. simpl. intros [H | H]; revert H.
  - repeat answer env; intros H; try discriminate H. injection H as _ <-. reflexivity.
  - repeat answer env; intros H; try discriminate H. injection H as _ <-. reflexivity.
Qed.

Lemma handlers_user_bodies_sanitized_witness :
  response (value (run (memEnv seqID) (handlers.GetUserByID rqGetAlice) worldAB))
    = JSON StatusOK (BodyUser (SanitizePassword alice)) /\
  Password (SanitizePassword alice) = ""%string.
Proof.
  split; [vm_compute; reflexivity |].
  apply (handlers_user_bodies_sanitized (memEnv seqID) worldAB rqGetAlice StatusOK
           (SanitizePassword alice)).
  right. vm_compute. reflexivity.
Defined.

(** X12: the cookie [Logout] sets has the name and path of the session
    cookie [Login] and [Register] set under the same configuration, an empty
    value and a negative max-age, so it replaces and expires that cookie. *)
Theorem DeleteSessionCookie_expires_session_cookie (cfg : Config) (session : string) :
  let expired := DeleteSessionCookie (sessName (cfgSession cfg)) in
  let issued := CreateSessionCookie cfg session in
  Name expired = Name issued /\
  Path expired = Path issued /\
  Value expired = ""%string /\
  MaxAge expired < 0.
Proof. simpl. repeat split. Qed.

(** The first cookie named [name] is found behind cookies of other names. *)
Lemma CookieByName_skips_others (name : string) (before rest : list Cookie) (ck : Cookie) :
  Forall (fun other => Name other <> name) before ->
  Name ck = name ->
  CookieByName name (before ++ ck :: rest)%list = Ok ck.
Proof.
  intros Hbefore Hname. induction Hbefore as [| other before Hother _ IH]; simpl.
  - rewrite Hname, String.eqb_refl. reflexivity.
  - destruct (String.eqb_spec (Name other) name); [contradiction | exact IH].
Qed.

(** X13: with the session name configured as "session-id", a logout
    request that sends back the name and value of the cookie [Login] or
    [Register] set for a session, behind cookies of other names only, makes
    exactly one call: the deletion of that session. *)
Theorem Logout_deletes_session_of_login_cookie {W : Type} (cfg : Config) (env : Env W)
        (w : W) (c : Request) (sess : string) (ck : Cookie) (before rest : list Cookie) :
  sessName (cfgSession cfg) = "session-id"%string ->
  reqCookies c = (before ++ ck :: rest)%list ->
  Forall (fun other => Name other <> "session-id"%string) before ->
  Name ck = Name (CreateSessionCookie cfg sess) ->
  Value ck = Value (CreateSessionCookie cfg sess) ->
  trace (run env (handlers.Logout cfg c) w)
    = [SessRepoDeleteByID (GetCtxWithReqID c) sess].
Proof.
  intros Hcfg Hcookies Hbefore Hname Hvalue. simpl in Hname, Hvalue.
  unfold handlers.Logout. rewrite Hcookies.
  rewrite (CookieByName_skips_others "session-id" before rest ck Hbefore)
    by (rewrite Hname; exact Hcfg).
  rewrite Hvalue. unfold sessUC.DeleteByID. prog_unfold. simpl.
  destruct (env (SessRepoDeleteByID (GetCtxWithReqID c) sess) w) as [[err |] w1]; reflexivity.
Qed.

Lemma Logout_deletes_session_of_login_cookie_witness :
  let sent := [sentCookie "jwt-token" "jwt.x"; sentCookie "session-id" "id-0"] in
  trace (run (memEnv seqID) (handlers.Logout cfgNoSecret (rqLogout sent)) worldAB)
    = [SessRepoDeleteByID (GetCtxWithReqID (rqLogout sent)) "id-0"].
Proof.
  intros sent.
  apply (Logout_deletes_session_of_login_cookie cfgNoSecret (memEnv seqID) worldAB
           (rqLogout sent) "id-0" (sentCookie "session-id" "id-0")
           [sentCookie "jwt-token" "jwt.x"] []).
  - reflexivity.
  - reflexivity.
  - repeat constructor. discriminate.
  - reflexivity.
  - reflexivity.
Defined.

(** *** Comments use case *)

Lemma commentsUC_refused_witness :
  let edit := {| CommentID := MkUUID "c-1"; AuthorID := aliceID; NewsID := MkUUID "n-1";
                 Message := "defaced" |} in
  let get := CommRepoGetByID ctxAlice (MkUUID "c-1") in
  let chk := ValidateIsOwner ctxAlice (UUID_String bobID) in
  run (memEnv seqID) (commentsUC.Update ctxAlice edit) worldAB
    = mkOutcome (Err (Wrap (Tagged ForbiddenError) "commentsUC Update ValidateIsOwner"))
                worldAB [get; chk] /\
  run (memEnv seqID) (commentsUC.Delete ctxAlice (MkUUID "c-1")) worldAB
    = mkOutcome (Some (Wrap (Tagged ForbiddenError) "commentsUC Delete ValidateIsOwner"))
                worldAB [get; chk].
Proof.
  intros edit get chk.
  apply (commentsUC_refused (memEnv seqID) worldAB ctxAlice edit (toBase bobsComment)
           (Tagged ForbiddenError)).
  - reflexivity.
  - reflexivity.
Defined.

(** X15: [Update] and [Delete] of the comments use case reach the
    repository's update or delete only after the comment was found and the
    ownership guard accepted its author. *)
Theorem commentsUC_mutation_only_after_pass {W : Type} (env : Env W) (w : W) (ctx : Context)
        (comment : Comment) (commentID : UUID) :
  (Exists isMutation (trace (run env (commentsUC.Update ctx comment) w)) ->
   exists comm,
     (env (CommRepoGetByID ctx (CommentID comment)) w).1 = Ok comm /\
     (env (ValidateIsOwner ctx (UUID_String (cbAuthorID comm)))
          (env (CommRepoGetByID ctx (CommentID comment)) w).2).1 = None) /\
  (Exists isMutation (trace (run env (commentsUC.Delete ctx commentID) w)) ->
   exists comm,
     (env (CommRepoGetByID ctx commentID) w).1 = Ok comm /\
     (env (ValidateIsOwner ctx (UUID_String (cbAuthorID comm)))
          (env (CommRepoGetByID ctx commentID) w).2).1 = None).
Proof.
  assert (Hnone : forall l, Forall (fun c => ~ isMutation c) l -> ~ Exists isMutation l).
  { intros l Hall Hex. apply Exists_exists in Hex as (c & Hin & Hc).
    rewrite Forall_forall in Hall. exact (Hall c Hin Hc). }
  unfold commentsUC.Update, commentsUC.Delete. prog_unfold. simpl. split.
  - destruct (env (CommRepoGetByID ctx (CommentID comment)) w) as [[comm | e] w1]; simpl.
    + destruct (env (ValidateIsOwner ctx (UUID_String (cbAuthorID comm))) w1)
        as [[err |] w2] eqn:Hchk; simpl.
      * intros Hex. exfalso. revert Hex. apply Hnone. repeat constructor; intros [].
      * intros _. exists comm. rewrite Hchk. split; reflexivity.
    + intros Hex. exfalso. revert Hex. apply Hnone. repeat constructor; intros [].
  - destruct (env (CommRepoGetByID ctx commentID) w) as [[comm | e] w1]; simpl.
    + destruct (env (ValidateIsOwner ctx (UUID_String (cbAuthorID comm))) w1)
        as [[err |] w2] eqn:Hchk; simpl.
      * intros Hex. exfalso. revert Hex. apply Hnone. repeat constructor; intros [].
      * intros _. exists comm. rewrite Hchk. split; reflexivity.
    + intros Hex. exfalso. revert Hex. apply Hnone. repeat constructor; intros [].
Qed.

(** X16: [createKey] gives different comment ids different cache keys. *)
Theorem createKey_injective (a b : string) :
  createKey a = createKey b -> a = b.
Proof.
  unfold createKey, basePrefix. simpl. intros H. injection H. auto.
Qed.

Lemma createKey_injective_witness :
  createKey "c-1" = "api-comments:: c-1"%string /\ "c-1"%string = "c-1"%string.
Proof.
  split; [reflexivity |].
  apply (createKey_injective "c-1" "c-1"). reflexivity.
Defined.

Lemma commentsUC_mutation_only_after_pass_witness :
  let edit := {| CommentID := MkUUID "c-1"; AuthorID := bobID; NewsID := MkUUID "n-1";
                 Message := "second" |} in
  exists comm,
    (memEnv seqID (CommRepoGetByID ctxBob (MkUUID "c-1")) worldAB).1 = Ok comm /\
    (memEnv seqID (ValidateIsOwner ctxBob (UUID_String (cbAuthorID comm)))
            (memEnv seqID (CommRepoGetByID ctxBob (MkUUID "c-1")) worldAB).2).1 = None.
Proof.
  intros edit.
  destruct (commentsUC_mutation_only_after_pass (memEnv seqID) worldAB ctxBob edit
              (MkUUID "c-1")) as [Hupdate _].
  apply Hupdate. vm_compute.
  repeat first [apply Exists_cons_hd; exact I | apply Exists_cons_tl].
Defined.

(** X17: the id [Delete] hands to the repository for deletion, and the id
    [GetUserByID] looks up, is the one parsed from the route parameter
    "user_id". *)
Theorem handlers_act_on_route_id {W : Type} (env : Env W) (w : W) (c : Request)
        (ctx : Context) (userID : UUID) :
  In (AuthRepoDelete ctx userID) (trace (run env (handlers.Delete c) w)) \/
  In (AuthRepoGetByID ctx userID) (trace (run env (handlers.GetUserByID c) w)) ->
  (env (uuid_Parse (Param "user_id" (reqParams c))) w).1 = Ok userID /\
  ctx = GetCtxWithReqID c.
Proof.
  unfold handlers.Delete, handlers.GetUserByID, authUC.Delete, authUC.GetByID.
  prog_unfold. simpl.
  destruct (env (uuid_Parse (Param "user_id" (reqParams c))) w) as [[uID | e] w1]; simpl.
  - intros [H | H]; revert H.
    + destruct (env (AuthRepoDelete (GetCtxWithReqID c) uID) w1) as [[err |] w2]; simpl;
        intros [H | [H | []]]; try discriminate H; injection H as <- <-; auto.
    + destruct (env (AuthRepoGetByID (GetCtxWithReqID c) uID) w1) as [[u | err] w2]; simpl;
        intros [H | [H | []]]; try discriminate H; injection H as <- <-; auto.
  - intros [[H | []] | [H | []]]; discriminate H.
Qed.

Lemma handlers_act_on_route_id_witness :
  (memEnv seqID (uuid_Parse (Param "user_id" (reqParams rqDeleteBob))) worldAB).1 = Ok bobID /\
  GetCtxWithReqID rqDeleteBob = GetCtxWithReqID rqDeleteBob.
Proof.
  apply (handlers_act_on_route_id (memEnv seqID) worldAB rqDeleteBob
           (GetCtxWithReqID rqDeleteBob) bobID).
  left. vm_compute. right; left; reflexivity.
Defined.
